(** * fpv.py: keyboard front end of a Tello quadcopter

    A shallow embedding of [src/fpv.py]: the velocity attributes of class
    [Drone] and the methods that ramp them, the key dispatch of
    [App.on_event], the control loop [App.run] with its teardown, and the
    telemetry throttle [Info.update].

    Python integers are unbounded: they are modelled by [Z].  An object whose
    attributes are read and written through [getattr]/[setattr] is modelled
    by its attribute dictionary, a [gmap string Z].  A method is a
    computation in the monad [M]: it threads the receiver's state, records
    the calls that leave the program (tello, pygame, cv2) in an event log and
    may raise a Python exception. *)

From Stdlib Require Import ZArith List Lia Bool.
From stdpp Require Import base strings gmap.
Import ListNotations.

Local Open Scope string_scope.
Local Open Scope Z_scope.

(** ** Calls that leave the program *)

(** The calls on the [tello.Tello] object, on the cv2 camera and of the pygame
    display that the modelled methods make, with the monitor query of
    [resolution] and the constructor [tello.Tello()].  Each of them may
    raise. *)
Inductive extcall : Type :=
  | get_monitors
  | tello_Tello
  | tello_connect
  | streamon
  | streamoff
  | send_rc_control
  | tello_end
  | tello_land
  | tello_takeoff
  | tello_emergency
  | get_frame_read
  | telemetry
  | cam_read
  | cam_release
  | display.

(** The observable trace.  Every external call is recorded when it is made,
    [send_rc_control] with its four arguments in the order of the call.
    [EvInvoke name] records that [App] called the method [name] of its
    device; [EvAreaFill] is the first statement of [Info._update] and
    [EvInfo] the blit of the finished telemetry panel, with the four
    velocities it shows in the order they are drawn. *)
Inductive event : Type :=
  | EvClockTick (fps : Z)
  | EvInvoke (name : string)
  | EvSendRc (lr fb ud yaw : Z)
  | EvCall (c : extcall)
  | EvPrint (s : string)
  | EvAreaFill
  | EvInfo (fb lr ud yaw : Z)
  | EvPgQuit.

Inductive exn : Type :=
  | AttributeError (name : string)
  | ValueError
  | ExternalError (c : extcall).

Inductive result (A : Type) : Type :=
  | Ok (a : A)
  | Raise (e : exn).
Arguments Ok {A} a.
Arguments Raise {A} e.

(** The environment decides which external calls raise. *)
Definition oracle : Type := extcall -> bool.

Definition no_failure : oracle := fun _ => false.

(** ** The monad of methods *)

Record outcome (S A : Type) : Type := Outcome {
  out_log : list event;
  out_state : S;
  out_result : result A
}.
Arguments Outcome {S A} _ _ _.
Arguments out_log {S A} _.
Arguments out_state {S A} _.
Arguments out_result {S A} _.

Definition M (S A : Type) : Type := oracle -> S -> outcome S A.

Definition ret {S A} (a : A) : M S A :=
  fun _ s => Outcome [] s (Ok a).

Definition bind {S A B} (m : M S A) (f : A -> M S B) : M S B :=
  fun o s =>
    let r := m o s in
    match out_result r with
    | Ok a =>
        let r' := f a o (out_state r) in
        Outcome (out_log r ++ out_log r') (out_state r') (out_result r')
    | Raise e => Outcome (out_log r) (out_state r) (Raise e)
    end.

Definition raise {S A} (e : exn) : M S A :=
  fun _ s => Outcome [] s (Raise e).

Definition get {S} : M S S :=
  fun _ s => Outcome [] s (Ok s).

Definition put {S} (s : S) : M S unit :=
  fun _ _ => Outcome [] s (Ok tt).

Definition emit {S} (e : event) : M S unit :=
  fun _ s => Outcome [e] s (Ok tt).

(** An external call: recorded in the log, then it returns or raises as the
    environment decides. *)
Definition external {S} (c : extcall) (e : event) : M S unit :=
  fun o s => Outcome [e] s (if o c then Raise (ExternalError c) else Ok tt).

Declare Scope method_scope.
Delimit Scope method_scope with method.
Notation "x <- m ;; k" := (bind m (fun x => k))
  (at level 100, m at next level, k at level 200, right associativity)
  : method_scope.
Notation "m ;; k" := (bind m (fun _ => k))
  (at level 100, k at level 200, right associativity) : method_scope.
Local Open Scope method_scope.

(** Run a method of a component object held in a field of the receiver. *)
Definition zoom {S T A} (proj : S -> T) (upd : T -> S -> S) (m : M T A)
  : M S A :=
  fun o s =>
    let r := m o (proj s) in
    Outcome (out_log r) (upd (out_state r) s) (out_result r).

(** Run a computation against another failure oracle. *)
Definition with_oracle {S A} (o : oracle) (m : M S A) : M S A :=
  fun _ s => m o s.

(** Python's [for x in xs: body]. *)
Fixpoint for_each {S A} (xs : list A) (body : A -> M S unit) : M S unit :=
  match xs with
  | [] => ret tt
  | x :: xs' => body x ;; for_each xs' body
  end.

(** Attribute lookup of a method in a class: [None] stands for Python's
    [AttributeError]. *)
Definition lookup_method {S} (methods : list (string * M S unit))
    (name : string) : option (M S unit) :=
  option_map snd (List.find (fun p => String.eqb name (fst p)) methods).

(** [resolution()], given the monitors [get_monitors()] finds: the
    unpacking [[monitor] = ...] raises [ValueError] unless there is exactly
    one. *)
Definition resolution {S} (monitors : list (Z * Z)) : M S (Z * Z) :=
  external get_monitors (EvCall get_monitors) ;;
  match monitors with
  | [monitor] => ret monitor
  | _ => raise ValueError
  end.

(** ** class Drone *)

Module Drone.

(** The instance dictionary of a [Drone]: its integer attributes. *)
Abbreviation t := (gmap string Z).

Definition getattr (name : string) : M t Z :=
  self <- get ;;
  match self !! name with
  | Some v => ret v
  | None => raise (AttributeError name)
  end.

Definition setattr (name : string) (v : Z) : M t unit :=
  self <- get ;;
  put (<[name := v]> self).

Definition _gain_velocity_plus (velocity : string) (max_vel : Z) : M t unit :=
  vel <- getattr velocity ;;
  let vel := vel + 3 in
  let vel := Z.max 0 (Z.min vel max_vel) in
  setattr velocity vel.

Definition _gain_velocity_minus (velocity : string) (min_vel : Z) : M t unit :=
  vel <- getattr velocity ;;
  let vel := vel - 3 in
  let vel := Z.max min_vel (Z.min vel 0) in
  setattr velocity vel.

Definition _waste_velocity (velocity : string) : M t unit :=
  vel <- getattr velocity ;;
  let vel :=
    if 0 <? vel then
      let vel := vel - 10 in
      Z.max 0 vel
    else
      let vel := vel + 10 in
      Z.min 0 vel in
  setattr velocity vel.

(* left right *)
Definition right : M t unit := _gain_velocity_plus "left_right_velocity" 100.
Definition left : M t unit := _gain_velocity_minus "left_right_velocity" (-100).
Definition waste_left_right : M t unit := _waste_velocity "left_right_velocity".

(* forward backward *)
Definition forward : M t unit := _gain_velocity_plus "forward_backward_velocity" 100.
Definition backward : M t unit := _gain_velocity_minus "forward_backward_velocity" (-100).
Definition waste_forward_backward : M t unit := _waste_velocity "forward_backward_velocity".

(* up down *)
Definition up : M t unit := _gain_velocity_plus "up_down_velocity" 100.
Definition down : M t unit := _gain_velocity_minus "up_down_velocity" (-100).
Definition waste_up_down : M t unit := _waste_velocity "up_down_velocity".

(* yaw *)
Definition ccw : M t unit := _gain_velocity_plus "yaw_velocity" 100.
Definition cw : M t unit := _gain_velocity_minus "yaw_velocity" (-100).
Definition waste_yaw : M t unit := _waste_velocity "yaw_velocity".

Definition stop : M t unit :=
  setattr "left_right_velocity" 0 ;;
  setattr "forward_backward_velocity" 0 ;;
  setattr "up_down_velocity" 0 ;;
  setattr "yaw_velocity" 0.

Definition update_rc : M t unit :=
  lr <- getattr "left_right_velocity" ;;
  fb <- getattr "forward_backward_velocity" ;;
  ud <- getattr "up_down_velocity" ;;
  yaw <- getattr "yaw_velocity" ;;
  external send_rc_control (EvSendRc lr fb ud yaw).

Definition release : M t unit :=
  external streamoff (EvCall streamoff) ;;
  stop ;;
  update_rc ;;
  external tello_end (EvCall tello_end).

Definition land : M t unit := external tello_land (EvCall tello_land).
Definition takeoff : M t unit := external tello_takeoff (EvCall tello_takeoff).
Definition emergency : M t unit := external tello_emergency (EvCall tello_emergency).

Definition get_frame : M t unit :=
  external get_frame_read (EvCall get_frame_read).

(** [Device.__init__], which [Drone.__init__] calls first. *)
Definition Device__init__ (monitors : list (Z * Z)) : M t unit :=
  size <- resolution monitors ;;
  setattr "width" (fst size) ;;
  setattr "height" (snd size).

(** [Drone.__init__], given the monitors attached.  The attribute [drone],
    which holds the [Tello] object, is not an integer and is left out of
    the dictionary. *)
Definition __init__ (monitors : list (Z * Z)) : M t unit :=
  Device__init__ monitors ;;
  external tello_Tello (EvCall tello_Tello) ;;
  external tello_connect (EvCall tello_connect) ;;
  external streamon (EvCall streamon) ;;
  stop ;;
  update_rc.

(** The methods of the class, by name. *)
Definition methods : list (string * M t unit) :=
  [("get_frame", get_frame); ("update_rc", update_rc);
   ("release", release);
   ("right", right); ("left", left);
   ("waste_left_right", waste_left_right);
   ("forward", forward); ("backward", backward);
   ("waste_forward_backward", waste_forward_backward);
   ("up", up); ("down", down); ("waste_up_down", waste_up_down);
   ("ccw", ccw); ("cw", cw); ("waste_yaw", waste_yaw);
   ("stop", stop); ("land", land); ("takeoff", takeoff);
   ("emergency", emergency)].

End Drone.

(** ** class NotebookCamera *)

Module NotebookCamera.

(** The stand-in device keeps no velocity attributes. *)
Definition t : Type := unit.

Definition get_frame : M t unit := external cam_read (EvCall cam_read).
Definition release : M t unit := external cam_release (EvCall cam_release).
Definition left : M t unit := emit (EvPrint "left").
Definition right : M t unit := emit (EvPrint "right").
Definition forward : M t unit := emit (EvPrint "forward").
Definition backward : M t unit := emit (EvPrint "backward").
Definition up : M t unit := emit (EvPrint "up").
Definition down : M t unit := emit (EvPrint "down").
Definition cw : M t unit := emit (EvPrint "cw").
Definition ccw : M t unit := emit (EvPrint "ccw").
Definition land : M t unit := emit (EvPrint "land").
Definition takeoff : M t unit := emit (EvPrint "takeoff").
Definition emergency : M t unit := emit (EvPrint "emergency").
Definition stop : M t unit := emit (EvPrint "stop").

(** The methods of the class, by name: it defines neither [update_rc]
    nor the [waste_*] methods. *)
Definition methods : list (string * M t unit) :=
  [("get_frame", get_frame); ("release", release);
   ("left", left); ("right", right);
   ("forward", forward); ("backward", backward);
   ("up", up); ("down", down); ("cw", cw); ("ccw", ccw);
   ("land", land); ("takeoff", takeoff); ("emergency", emergency);
   ("stop", stop)].

End NotebookCamera.

(** ** pygame input *)

Inductive key : Type :=
  | K_w | K_s | K_a | K_d | K_SPACE | K_c | K_q | K_e
  | K_ESCAPE | K_0 | K_1 | K_DELETE
  | K_other (code : Z).

(** The events [pg.event.get()] returns: [QUIT], [KEYUP] with its key, and
    every other type, on which [on_event] does nothing. *)
Inductive pg_event : Type :=
  | QUIT
  | KEYUP (k : key)
  | OTHER.

(** What one iteration of the loop reads from its environment: the event
    queue, the held keys, [time.localtime().tm_sec], and which external
    calls raise during the iteration. *)
Record tick : Type := Tick {
  events : list pg_event;
  keys : key -> bool;
  now : Z;
  fails : oracle
}.

(** The device [App.init_device] selects. *)
Inductive device : Type :=
  | ANotebookCamera (c : NotebookCamera.t)
  | ADrone (d : Drone.t).

(** How the loop over the supplied ticks ends: [run] returned, or the
    ticks ran out with [_running] still set. *)
Inductive loop_end : Type :=
  | Terminated
  | InputExhausted.

(** ** class Info and class App *)

Module App.

(** [App] with the fields the loop uses.  [Info] holds a reference to the
    same device object as [App.drone]; its one mutable field
    [last_upd_time] is kept here, so that both see one device. *)
Record t : Type := Make {
  _running : bool;
  fps : Z;
  drone : device;
  last_upd_time : Z
}.

Definition set_running (b : bool) (self : t) : t :=
  Make b (fps self) (drone self) (last_upd_time self).
Definition set_drone (d : device) (self : t) : t :=
  Make (_running self) (fps self) d (last_upd_time self).
Definition set_last_upd_time (x : Z) (self : t) : t :=
  Make (_running self) (fps self) (drone self) x.

(** [self.drone.name()]: the method is looked up in the class of the
    device and run on it. *)
Definition drone_call (name : string) : M t unit :=
  self <- get ;;
  match drone self with
  | ADrone d =>
      match lookup_method Drone.methods name with
      | Some m =>
          emit (EvInvoke name) ;;
          zoom (fun _ => d) (fun d' => set_drone (ADrone d')) m
      | None => raise (AttributeError name)
      end
  | ANotebookCamera c =>
      match lookup_method NotebookCamera.methods name with
      | Some m =>
          emit (EvInvoke name) ;;
          zoom (fun _ => c) (fun c' => set_drone (ANotebookCamera c')) m
      | None => raise (AttributeError name)
      end
  end.

(** [self.drone.name] for an integer attribute. *)
Definition drone_getattr (name : string) : M t Z :=
  self <- get ;;
  match drone self with
  | ADrone d => zoom (fun _ => d) (fun _ s => s) (Drone.getattr name)
  | ANotebookCamera _ => raise (AttributeError name)
  end.

(** [Info._update]: the panel is cleared, the four velocities and the
    telemetry readings are drawn in turn, the panel is blitted. *)
Definition Info__update : M t unit :=
  emit EvAreaFill ;;
  fb <- drone_getattr "forward_backward_velocity" ;;
  lr <- drone_getattr "left_right_velocity" ;;
  ud <- drone_getattr "up_down_velocity" ;;
  yaw <- drone_getattr "yaw_velocity" ;;
  external telemetry (EvCall telemetry) ;;
  emit (EvInfo fb lr ud yaw).

(** [Info.update], given the value of [time.localtime().tm_sec]. *)
Definition Info_update (now : Z) : M t unit :=
  self <- get ;;
  if negb (now =? last_upd_time self) then
    put (set_last_upd_time now self) ;;
    Info__update
  else ret tt.

Definition on_info (now : Z) : M t unit := Info_update now.

(** The body of the [for event in pg.event.get()] loop. *)
Definition handle_event (event : pg_event) : M t unit :=
  (match event with
   | QUIT => self <- get ;; put (set_running false self)
   | _ => ret tt
   end) ;;
  match event with
  | KEYUP K_ESCAPE => self <- get ;; put (set_running false self)
  | KEYUP K_0 => drone_call "land"
  | KEYUP K_1 => drone_call "takeoff"
  | KEYUP K_DELETE => drone_call "emergency"
  | _ => ret tt
  end.

Definition on_event (evs : list pg_event) (keys : key -> bool) : M t unit :=
  for_each evs handle_event ;;
  (if keys K_w then drone_call "forward"
   else if keys K_s then drone_call "backward"
   else drone_call "waste_forward_backward") ;;
  (if keys K_a then drone_call "left"
   else if keys K_d then drone_call "right"
   else drone_call "waste_left_right") ;;
  (if keys K_SPACE then drone_call "up"
   else if keys K_c then drone_call "down"
   else drone_call "waste_up_down") ;;
  (if keys K_q then drone_call "cw"
   else if keys K_e then drone_call "ccw"
   else drone_call "waste_yaw").

Definition draw_frame : M t unit :=
  drone_call "get_frame".

Definition on_render : M t unit :=
  draw_frame ;;
  external display (EvCall display).

Definition on_exit : M t unit :=
  drone_call "release" ;;
  emit EvPgQuit.

(** One pass through the body of the [while] loop of [run]. *)
Definition iteration (ti : tick) : M t unit :=
  self <- get ;;
  emit (EvClockTick (fps self)) ;;
  on_info (now ti) ;;
  on_event (events ti) (keys ti) ;;
  on_render ;;
  drone_call "update_rc".

(** [run] over the ticks supplied.  The ambient oracle governs
    [on_exit]; each iteration runs against its tick's own. *)
Fixpoint run (ticks : list tick) : M t loop_end :=
  self <- get ;;
  if _running self then
    match ticks with
    | [] => ret InputExhausted
    | ti :: rest =>
        with_oracle (fails ti) (iteration ti) ;;
        run rest
    end
  else
    on_exit ;;
    ret Terminated.

End App.


(** * Vocabulary of the properties *)

(** ** Reading the trace *)

Definition is_send (e : event) : bool :=
  match e with EvSendRc _ _ _ _ => true | _ => false end.

(** The flushes of a trace: its [send_rc_control] calls, in order. *)
Definition sends (log : list event) : list event := List.filter is_send log.

Definition is_invoke (e : event) : bool :=
  match e with EvInvoke _ => true | _ => false end.

(** The calls [App] made on its device, in order. *)
Definition invoked (log : list event) : list event :=
  List.filter is_invoke log.

(** A computation that never records an event selected by [p]. *)
Definition quiet {S A} (p : event -> bool) (m : M S A) : Prop :=
  forall o s, List.filter p (out_log (m o s)) = [].

Definition is_area_fill (e : event) : bool :=
  match e with EvAreaFill => true | _ => false end.

(** [Info._update] was entered. *)
Definition refreshed (log : list event) : bool := existsb is_area_fill log.

(** A computation whose final state is always related to its initial
    state by [R], whether it returns or raises. *)
Definition preserves {S A} (R : S -> S -> Prop) (m : M S A) : Prop :=
  forall o s, R s (out_state (m o s)).

(** ** The velocity controller *)

Module Controller.
Import Drone.

(** The arithmetic of the three private helpers, as functions of the
    attribute's value. *)
Definition plus_step (max_vel vel : Z) : Z :=
  Z.max 0 (Z.min (vel + 3) max_vel).
Definition minus_step (min_vel vel : Z) : Z :=
  Z.max min_vel (Z.min (vel - 3) 0).
Definition waste_step (vel : Z) : Z :=
  if 0 <? vel then Z.max 0 (vel - 10) else Z.min 0 (vel + 10).

(** The four velocity attributes, in the order [stop] assigns them. *)
Definition axes : list string :=
  ["left_right_velocity"; "forward_backward_velocity";
   "up_down_velocity"; "yaw_velocity"].

(** The value of an attribute, as [update_rc] reads it. *)
Definition axis (d : t) (name : string) : option Z := d !! name.

(** The one monitor the layout of the application is made for: the frame
    is 1440 wide, the telemetry panel 480, both 1080 high. *)
Definition monitor : Z * Z := (1920, 1080).

(** The state [Drone.__init__] leaves when the connection succeeds. *)
Definition initial : t := out_state (__init__ [monitor] no_failure ∅).

(** [m] called [n] times in a row. *)
Fixpoint times {S} (n : nat) (m : M S unit) : M S unit :=
  match n with
  | O => ret tt
  | S n' => m ;; times n' m
  end.

(** [getattr(drone, name)()]: a call of the method named [name]. *)
Definition call (name : string) : M t unit :=
  match lookup_method methods name with
  | Some m => m
  | None => raise (AttributeError name)
  end.

(** The calls of a list of method names, one after the other. *)
Definition calls (names : list string) : M t unit :=
  for_each names call.

(** The public velocity methods, by name. *)
Definition gain_positive : list string := ["right"; "forward"; "up"; "ccw"].
Definition gain_negative : list string := ["left"; "backward"; "down"; "cw"].
Definition decay : list string :=
  ["waste_left_right"; "waste_forward_backward"; "waste_up_down";
   "waste_yaw"].
Definition controller_ops : list string :=
  gain_positive ++ gain_negative ++ decay ++ ["stop"].

(** Each per-axis method with the attribute it is written for. *)
Definition axis_methods : list (string * string) :=
  [("left_right_velocity", "right"); ("left_right_velocity", "left");
   ("left_right_velocity", "waste_left_right");
   ("forward_backward_velocity", "forward");
   ("forward_backward_velocity", "backward");
   ("forward_backward_velocity", "waste_forward_backward");
   ("up_down_velocity", "up"); ("up_down_velocity", "down");
   ("up_down_velocity", "waste_up_down");
   ("yaw_velocity", "ccw"); ("yaw_velocity", "cw");
   ("yaw_velocity", "waste_yaw")].

(** All four attributes are set and within the clamp range. *)
Definition in_range (d : t) : Prop :=
  forall name, In name axes ->
    exists v, axis d name = Some v /\ -100 <= v <= 100.

End Controller.

(** ** The input mapper *)

Module Mapper.

(** An axis pair of [on_event]: the key tested first and the method it
    calls, the key tested second and its method, and the decay method. *)
Record pair : Type := Pair {
  first_key : key;
  first_method : string;
  second_key : key;
  second_method : string;
  waste_method : string
}.

(** The four pairs in the order [on_event] handles them. *)
Definition pairs : list pair :=
  [Pair K_w "forward" K_s "backward" "waste_forward_backward";
   Pair K_a "left" K_d "right" "waste_left_right";
   Pair K_SPACE "up" K_c "down" "waste_up_down";
   Pair K_q "cw" K_e "ccw" "waste_yaw"].

(** The methods of a pair. *)
Definition pair_methods (p : pair) : list string :=
  [first_method p; second_method p; waste_method p].

(** The event is a call of one of the pair's methods. *)
Definition calls_pair (p : pair) (e : event) : bool :=
  match e with
  | EvInvoke name => existsb (String.eqb name) (pair_methods p)
  | _ => false
  end.

(** The calls in a trace that belong to the pair. *)
Definition invoked_of (p : pair) (log : list event) : list event :=
  List.filter (calls_pair p) log.

(** The method the [if]/[elif]/[else] chain of a pair selects. *)
Definition selected (held : key -> bool) (p : pair) : string :=
  if held (first_key p) then first_method p
  else if held (second_key p) then second_method p
  else waste_method p.

Definition all_held : key -> bool := fun _ => true.
Definition none_held : key -> bool := fun _ => false.

End Mapper.

(** ** The loop *)

Module Loop.

(** The tick carries a quit event: [QUIT] or the release of Escape. *)
Definition is_quit (e : pg_event) : bool :=
  match e with
  | QUIT | KEYUP K_ESCAPE => true
  | _ => false
  end.

Definition quits (ti : tick) : bool := existsb is_quit (events ti).

(** [_running] is left as it was. *)
Definition same_running (s s' : App.t) : Prop :=
  App._running s' = App._running s.

(** The first of the calls of [release] that raises, if one does. *)
Definition teardown_error (o : oracle) : option exn :=
  if o streamoff then Some (ExternalError streamoff)
  else if o send_rc_control then Some (ExternalError send_rc_control)
  else if o tello_end then Some (ExternalError tello_end)
  else None.

(** What [on_exit] adds to the trace on a [Drone]: the calls of [release]
    up to the first that raises, and [pg.quit] if none does. *)
Definition teardown_trace (o : oracle) : list event :=
  EvInvoke "release" :: EvCall streamoff
  :: (if o streamoff then []
      else EvSendRc 0 0 0 0
           :: (if o send_rc_control then []
               else EvCall tello_end
                    :: (if o tello_end then [] else [EvPgQuit]))).

(** What [on_exit] adds to the trace when nothing raises. *)
Definition teardown_log : list event :=
  [EvInvoke "release"; EvCall streamoff; EvSendRc 0 0 0 0;
   EvCall tello_end; EvPgQuit].

(** An [App] on a connected drone, its loop about to start. *)
Definition started : App.t :=
  App.Make true 30 (ADrone Controller.initial) 0.

(** A tick on which the window is closed and nothing else happens. *)
Definition quit_tick : tick := Tick [QUIT] Mapper.none_held 0 no_failure.

(** A tick with no event and no key held. *)
Definition idle_tick : tick := Tick [] Mapper.none_held 0 no_failure.

(** The environment in which [streamoff] raises. *)
Definition streamoff_fails : oracle :=
  fun c => match c with streamoff => true | _ => false end.

End Loop.

(** ** The wall clock *)

Module Clock.

(** [time.localtime().tm_sec] when the clock reads [t] milliseconds since
    the epoch, in a zone whose offset is a whole number of minutes. *)
Definition tm_sec (t : Z) : Z := (t / 1000) mod 60.

(** An [App] whose telemetry panel was last refreshed at time [t]. *)
Definition refreshed_at (t : Z) : App.t :=
  App.Make true 30 (ADrone Controller.initial) (tm_sec t).

End Clock.


(** ** The loop as a function of the held keys *)

Module Flight.
Import Controller.

(** The four velocities, in the order of the arguments of
    [send_rc_control]. *)
Record velocities : Type := Velocities {
  left_right : Z;
  forward_backward : Z;
  up_down : Z;
  yaw : Z
}.

(** The velocities of a [Drone], when its four attributes are set. *)
Definition read (d : Drone.t) : option velocities :=
  match d !! "left_right_velocity", d !! "forward_backward_velocity",
        d !! "up_down_velocity", d !! "yaw_velocity" with
  | Some lr, Some fb, Some ud, Some y => Some (Velocities lr fb ud y)
  | _, _, _, _ => None
  end.

(** The velocities of the device of an [App]; a [NotebookCamera] has
    none. *)
Definition velocities_of (self : App.t) : option velocities :=
  match App.drone self with
  | ADrone d => read d
  | ANotebookCamera _ => None
  end.

(** The command [update_rc] sends for given velocities. *)
Definition command (v : velocities) : event :=
  EvSendRc (left_right v) (forward_backward v) (up_down v) (yaw v).

(** One [if]/[elif]/[else] chain of [on_event], on the value of its axis:
    [f1] is the arithmetic of the method of the key tested first, [f2] that
    of the key tested second. *)
Definition chain (held : key -> bool) (k1 : key) (f1 : Z -> Z)
    (k2 : key) (f2 : Z -> Z) (vel : Z) : Z :=
  if held k1 then f1 vel
  else if held k2 then f2 vel
  else waste_step vel.

(** The effect of the four chains of [on_event] on the velocities: W and S
    call [forward] and [backward], A and D call [left] and [right], SPACE
    and C call [up] and [down], Q and E call [cw] and [ccw]. *)
Definition key_step (held : key -> bool) (v : velocities) : velocities :=
  Velocities
    (chain held K_a (minus_step (-100)) K_d (plus_step 100) (left_right v))
    (chain held K_w (plus_step 100) K_s (minus_step (-100))
       (forward_backward v))
    (chain held K_SPACE (plus_step 100) K_c (minus_step (-100)) (up_down v))
    (chain held K_q (minus_step (-100)) K_e (plus_step 100) (yaw v)).

(** The velocities after each of a series of ticks, given the keys held on
    each tick. *)
Fixpoint trajectory (v : velocities) (helds : list (key -> bool))
  : list velocities :=
  match helds with
  | [] => []
  | held :: helds' =>
      let v' := key_step held v in
      v' :: trajectory v' helds'
  end.

(** The velocities after the last of a series of ticks. *)
Definition final (v : velocities) (helds : list (key -> bool)) : velocities :=
  List.fold_left (fun v held => key_step held v) helds v.

Definition in_bounds (v : velocities) : Prop :=
  -100 <= left_right v <= 100 /\ -100 <= forward_backward v <= 100
  /\ -100 <= up_down v <= 100 /\ -100 <= yaw v <= 100.

(** A [send_rc_control] whose four arguments lie in [-100, 100]; any other
    event. *)
Definition bounded_send (e : event) : Prop :=
  match e with
  | EvSendRc lr fb ud y =>
      -100 <= lr <= 100 /\ -100 <= fb <= 100
      /\ -100 <= ud <= 100 /\ -100 <= y <= 100
  | _ => True
  end.

(** No external call raises. *)
Definition never_fails (o : oracle) : Prop := forall c, o c = false.

(** No external call made before the flush of a pass raises: every call
    but [send_rc_control] returns. *)
Definition reaches_flush (o : oracle) : Prop :=
  forall c, c <> send_rc_control -> o c = false.

(** A tick during which no external call raises and no quit event
    arrives. *)
Definition healthy (ti : tick) : Prop :=
  never_fails (fails ti) /\ Loop.quits ti = false.

(** No direction key is held. *)
Definition released (held : key -> bool) : Prop :=
  held K_w = false /\ held K_s = false /\ held K_a = false
  /\ held K_d = false /\ held K_SPACE = false /\ held K_c = false
  /\ held K_q = false /\ held K_e = false.

(** The device of the application is a [Drone] whose four velocities are
    set and within the clamp range. *)
Definition flying (self : App.t) : Prop :=
  exists d, App.drone self = ADrone d /\ in_range d.

(** The attribute each per-axis method works on, and its arithmetic. *)
Definition axis_steps : list (string * (string * (Z -> Z))) :=
  [("right", ("left_right_velocity", plus_step 100));
   ("left", ("left_right_velocity", minus_step (-100)));
   ("waste_left_right", ("left_right_velocity", waste_step));
   ("forward", ("forward_backward_velocity", plus_step 100));
   ("backward", ("forward_backward_velocity", minus_step (-100)));
   ("waste_forward_backward", ("forward_backward_velocity", waste_step));
   ("up", ("up_down_velocity", plus_step 100));
   ("down", ("up_down_velocity", minus_step (-100)));
   ("waste_up_down", ("up_down_velocity", waste_step));
   ("ccw", ("yaw_velocity", plus_step 100));
   ("cw", ("yaw_velocity", minus_step (-100)));
   ("waste_yaw", ("yaw_velocity", waste_step))].

(** The environment in which only [c] raises. *)
Definition only_fails (c : extcall) : oracle :=
  fun c' =>
    match c, c' with
    | get_monitors, get_monitors | tello_Tello, tello_Tello
    | tello_connect, tello_connect | streamon, streamon
    | streamoff, streamoff | send_rc_control, send_rc_control
    | tello_end, tello_end | tello_land, tello_land
    | tello_takeoff, tello_takeoff | tello_emergency, tello_emergency
    | get_frame_read, get_frame_read | telemetry, telemetry
    | cam_read, cam_read | cam_release, cam_release
    | display, display => true
    | _, _ => false
    end.

(** An [App] on the stand-in camera, its loop about to start. *)
Definition on_notebook : App.t :=
  App.Make true 30 (ANotebookCamera tt) 0.

(** A tick with no event on which W and D are held. *)
Definition w_d_held : key -> bool :=
  fun k => match k with K_w | K_d => true | _ => false end.

Definition steer_tick : tick := Tick [] w_d_held 0 no_failure.

(** The device is the stand-in camera. *)
Definition is_camera (self : App.t) : bool :=
  match App.drone self with
  | ANotebookCamera _ => true
  | ADrone _ => false
  end.

(** The device object is left as it was. *)
Definition same_device (s s' : App.t) : Prop := App.drone s' = App.drone s.

(** An application on the stand-in camera stays on it. *)
Definition stays_camera (s s' : App.t) : Prop :=
  is_camera s = true -> is_camera s' = true.

(** A computation that keeps the invariant [I] of the state and records
    only events that satisfy [E], whether it returns or raises. *)
Definition guarded {S A} (I : S -> Prop) (E : event -> Prop) (m : M S A)
  : Prop :=
  forall o s, I s -> I (out_state (m o s)) /\ List.Forall E (out_log (m o s)).

End Flight.


(** * Properties *)

(** ** Reasoning about computations in [M] *)

Section MonadFacts.
Context {S : Type}.

Lemma bind_Ok {A B} (m : M S A) (f : A -> M S B) (o : oracle) (s : S) (a : A) :
  out_result (m o s) = Ok a ->
  bind m f o s
  = Outcome (out_log (m o s) ++ out_log (f a o (out_state (m o s))))
      (out_state (f a o (out_state (m o s))))
      (out_result (f a o (out_state (m o s)))).
Proof. intros H. unfold bind. rewrite H. reflexivity. Qed.

Lemma bind_Ok_split {A B} (m : M S A) (f : A -> M S B) (o : oracle) (s : S)
    (b : B) :
  out_result (bind m f o s) = Ok b ->
  exists a,
    out_result (m o s) = Ok a
    /\ out_result (f a o (out_state (m o s))) = Ok b
    /\ out_log (bind m f o s)
       = (out_log (m o s) ++ out_log (f a o (out_state (m o s))))%list
    /\ out_state (bind m f o s) = out_state (f a o (out_state (m o s))).
Proof.
  unfold bind. destruct (out_result (m o s)) as [a|e] eqn:E; simpl.
  - intros H. exists a. auto.
  - discriminate.
Qed.

Lemma bind_step {A B} (m : M S A) (f : A -> M S B) (o : oracle) (s s1 : S)
    (l : list event) (a : A) :
  m o s = Outcome l s1 (Ok a) ->
  bind m f o s
  = let r := f a o s1 in
    Outcome (l ++ out_log r) (out_state r) (out_result r).
Proof. intros H. unfold bind. rewrite H. reflexivity. Qed.

Lemma bind_stop {A B} (m : M S A) (f : A -> M S B) (o : oracle) (s s1 : S)
    (l : list event) (e : exn) :
  m o s = Outcome l s1 (Raise e) ->
  bind m f o s = Outcome l s1 (Raise e).
Proof. intros H. unfold bind. rewrite H. reflexivity. Qed.

End MonadFacts.

(** ** Computations that leave a kind of event out of the trace *)

Section Quiet.
Context {S : Type} (p : event -> bool).

Lemma quiet_ret {A} (a : A) : quiet p (ret (S := S) a).
Proof. intros o s. reflexivity. Qed.

Lemma quiet_raise {A} (e : exn) : quiet p (raise (S := S) (A := A) e).
Proof. intros o s. reflexivity. Qed.

Lemma quiet_get : quiet p (get (S := S)).
Proof. intros o s. reflexivity. Qed.

Lemma quiet_put (s' : S) : quiet p (put s').
Proof. intros o s. reflexivity. Qed.

Lemma quiet_emit (e : event) : p e = false -> quiet p (emit (S := S) e).
Proof. intros H o s. simpl. rewrite H. reflexivity. Qed.

Lemma quiet_external (c : extcall) (e : event) :
  p e = false -> quiet p (external (S := S) c e).
Proof. intros H o s. simpl. rewrite H. reflexivity. Qed.

Lemma quiet_bind {A B} (m : M S A) (f : A -> M S B) :
  quiet p m -> (forall a, quiet p (f a)) -> quiet p (bind m f).
Proof.
  intros Hm Hf o s. unfold bind.
  destruct (out_result (m o s)) as [a|e]; simpl.
  - rewrite List.filter_app, Hm, Hf. reflexivity.
  - apply Hm.
Qed.

Lemma quiet_prefix {A B} (m : M S A) (f : A -> M S B) (o : oracle) (s : S) :
  quiet p m ->
  List.filter p (out_log (bind m f o s))
  = match out_result (m o s) with
    | Ok a => List.filter p (out_log (f a o (out_state (m o s))))
    | Raise _ => []
    end.
Proof.
  intros Hm. unfold bind.
  destruct (out_result (m o s)) as [a|e]; simpl.
  - rewrite List.filter_app, Hm. reflexivity.
  - apply Hm.
Qed.

Lemma quiet_zoom {T A} (proj : S -> T) (upd : T -> S -> S) (m : M T A) :
  quiet p m -> quiet p (zoom proj upd m).
Proof. intros Hm o s. apply Hm. Qed.

Lemma quiet_with_oracle {A} (o' : oracle) (m : M S A) :
  quiet p m -> quiet p (with_oracle o' m).
Proof. intros Hm o s. apply Hm. Qed.

Lemma quiet_for_each {A} (xs : list A) (body : A -> M S unit) :
  (forall x, quiet p (body x)) -> quiet p (for_each xs body).
Proof.
  intros Hb. induction xs as [|x xs IH]; simpl.
  - apply quiet_ret.
  - apply quiet_bind; [apply Hb | intros _; exact IH].
Qed.

End Quiet.

Ltac quiet_step :=
  lazymatch goal with
  | |- quiet _ (bind _ _) => apply quiet_bind; [|intros ?]
  | |- quiet _ (ret _) => apply quiet_ret
  | |- quiet _ (raise _) => apply quiet_raise
  | |- quiet _ get => apply quiet_get
  | |- quiet _ (put _) => apply quiet_put
  | |- quiet _ (emit _) => apply quiet_emit; reflexivity
  | |- quiet _ (external _ _) => apply quiet_external; reflexivity
  | |- quiet _ (zoom _ _ _) => apply quiet_zoom
  | |- quiet _ (with_oracle _ _) => apply quiet_with_oracle
  | |- quiet _ (for_each _ _) => apply quiet_for_each; intros ?
  | |- quiet _ (match ?x with _ => _ end) => destruct x
  end.

Lemma lookup_method_In {S} (methods : list (string * M S unit))
    (name : string) (m : M S unit) :
  lookup_method methods name = Some m -> In (name, m) methods.
Proof.
  unfold lookup_method.
  destruct (List.find _ methods) as [[n m']|] eqn:E; [|discriminate].
  simpl. intros [= <-]. apply List.find_some in E. destruct E as [Hin Heq].
  apply String.eqb_eq in Heq. simpl in Heq. subst n. exact Hin.
Qed.

Lemma quiet_weaken {S A} (p q : event -> bool) (m : M S A) :
  (forall e, p e = true -> q e = true) -> quiet q m -> quiet p m.
Proof.
  intros Hpq Hm o s. specialize (Hm o s).
  induction (out_log (m o s)) as [|e l IH]; simpl in *; [reflexivity|].
  destruct (p e) eqn:Ep.
  - rewrite (Hpq e Ep) in Hm. discriminate.
  - apply IH. destruct (q e); [discriminate | exact Hm].
Qed.

(** ** The velocity controller *)

Module ControllerFacts.
Import Drone Controller.

Lemma getattr_Some (name : string) (v : Z) (o : oracle) (d : t) :
  d !! name = Some v -> getattr name o d = Outcome [] d (Ok v).
Proof. intros H. unfold getattr, bind, get. simpl. rewrite H. reflexivity. Qed.

Lemma getattr_None (name : string) (o : oracle) (d : t) :
  d !! name = None ->
  getattr name o d = Outcome [] d (Raise (AttributeError name)).
Proof. intros H. unfold getattr, bind, get. simpl. rewrite H. reflexivity. Qed.

Lemma plus_run (name : string) (mx v : Z) (o : oracle) (d : t) :
  d !! name = Some v ->
  _gain_velocity_plus name mx o d
  = Outcome [] (<[name := plus_step mx v]> d) (Ok tt).
Proof.
  intros H. unfold _gain_velocity_plus, bind.
  rewrite (getattr_Some _ _ _ _ H). reflexivity.
Qed.

Lemma minus_run (name : string) (mn v : Z) (o : oracle) (d : t) :
  d !! name = Some v ->
  _gain_velocity_minus name mn o d
  = Outcome [] (<[name := minus_step mn v]> d) (Ok tt).
Proof.
  intros H. unfold _gain_velocity_minus, bind.
  rewrite (getattr_Some _ _ _ _ H). reflexivity.
Qed.

Lemma waste_run (name : string) (v : Z) (o : oracle) (d : t) :
  d !! name = Some v ->
  _waste_velocity name o d = Outcome [] (<[name := waste_step v]> d) (Ok tt).
Proof.
  intros H. unfold _waste_velocity, bind.
  rewrite (getattr_Some _ _ _ _ H). reflexivity.
Qed.

Lemma plus_missing (name : string) (mx : Z) (o : oracle) (d : t) :
  d !! name = None ->
  _gain_velocity_plus name mx o d = Outcome [] d (Raise (AttributeError name)).
Proof.
  intros H. unfold _gain_velocity_plus, bind.
  rewrite (getattr_None _ _ _ H). reflexivity.
Qed.

Lemma minus_missing (name : string) (mn : Z) (o : oracle) (d : t) :
  d !! name = None ->
  _gain_velocity_minus name mn o d = Outcome [] d (Raise (AttributeError name)).
Proof.
  intros H. unfold _gain_velocity_minus, bind.
  rewrite (getattr_None _ _ _ H). reflexivity.
Qed.

Lemma waste_missing (name : string) (o : oracle) (d : t) :
  d !! name = None ->
  _waste_velocity name o d = Outcome [] d (Raise (AttributeError name)).
Proof.
  intros H. unfold _waste_velocity, bind.
  rewrite (getattr_None _ _ _ H). reflexivity.
Qed.

Lemma stop_run (o : oracle) (d : t) :
  stop o d
  = Outcome []
      (<["yaw_velocity" := 0]>
         (<["up_down_velocity" := 0]>
            (<["forward_backward_velocity" := 0]>
               (<["left_right_velocity" := 0]> d))))
      (Ok tt).
Proof. reflexivity. Qed.

Lemma initial_eq :
  initial
  = <["yaw_velocity" := 0]>
      (<["up_down_velocity" := 0]>
         (<["forward_backward_velocity" := 0]>
            (<["left_right_velocity" := 0]>
               (<["height" := 1080]> (<["width" := 1920]> ∅))))).
Proof. reflexivity. Qed.

(** The three helpers write no attribute but the one they are given. *)
Lemma plus_frame (name other : string) (mx : Z) (o : oracle) (d : t) :
  other <> name ->
  out_state (_gain_velocity_plus name mx o d) !! other = d !! other.
Proof.
  intros Hne. destruct (d !! name) as [v|] eqn:E.
  - rewrite (plus_run _ _ _ _ _ E). simpl. apply lookup_insert_ne. congruence.
  - rewrite (plus_missing _ _ _ _ E). reflexivity.
Qed.

Lemma minus_frame (name other : string) (mn : Z) (o : oracle) (d : t) :
  other <> name ->
  out_state (_gain_velocity_minus name mn o d) !! other = d !! other.
Proof.
  intros Hne. destruct (d !! name) as [v|] eqn:E.
  - rewrite (minus_run _ _ _ _ _ E). simpl. apply lookup_insert_ne. congruence.
  - rewrite (minus_missing _ _ _ _ E). reflexivity.
Qed.

Lemma waste_frame (name other : string) (o : oracle) (d : t) :
  other <> name ->
  out_state (_waste_velocity name o d) !! other = d !! other.
Proof.
  intros Hne. destruct (d !! name) as [v|] eqn:E.
  - rewrite (waste_run _ _ _ _ E). simpl. apply lookup_insert_ne. congruence.
  - rewrite (waste_missing _ _ _ E). reflexivity.
Qed.

(** Evaluation of a method lookup at a literal name. *)
Ltac eval_lookup :=
  cbv [call lookup_method Drone.methods NotebookCamera.methods List.find
       option_map String.eqb Ascii.eqb Bool.eqb fst snd].

(** C10: each of the twelve per-axis methods ([right], [left],
    [waste_left_right], ...) leaves every attribute other than its own
    unchanged, whatever the state of the controller; in particular the
    other three velocities keep their values. *)
Theorem axis_method_frame (name other method : string) (o : oracle) (d : t) :
  In (name, method) axis_methods ->
  other <> name ->
  axis (out_state (call method o d)) other = axis d other.
Proof.
  intros Hin Hne. unfold axis_methods in Hin. unfold axis.
  repeat (destruct Hin as [Hin|Hin];
          [injection Hin as <- <-; eval_lookup;
           lazymatch goal with
           | |- context [right] => apply plus_frame
           | |- context [forward] => apply plus_frame
           | |- context [up] => apply plus_frame
           | |- context [ccw] => apply plus_frame
           | |- context [left] => apply minus_frame
           | |- context [backward] => apply minus_frame
           | |- context [down] => apply minus_frame
           | |- context [cw] => apply minus_frame
           | |- _ => apply waste_frame
           end;
           exact Hne|]).
  destruct Hin.
Qed.

Lemma axis_method_frame_witness :
  axis (out_state (call "forward" no_failure initial)) "yaw_velocity"
  = axis initial "yaw_velocity".
Proof.
  apply (axis_method_frame "forward_backward_velocity" "yaw_velocity").
  - cbn [In axis_methods]. tauto.
  - discriminate.
Defined.

(** Lookup of a literal attribute name in a dictionary built by
    assignments to literal names. *)
Ltac attr_lookup :=
  repeat first
    [ rewrite lookup_insert_eq
    | rewrite lookup_insert_ne by discriminate ].

(** The attributes [stop] assigns read zero afterwards. *)
Lemma stop_axis (name : string) (o : oracle) (d : t) :
  In name axes -> axis (out_state (stop o d)) name = Some 0.
Proof.
  intros Hin. rewrite stop_run. unfold axis. cbn [out_state].
  unfold axes in Hin. cbn [In] in Hin.
  destruct Hin as [<-|[<-|[<-|[<-|[]]]]]; attr_lookup; reflexivity.
Qed.

Lemma update_rc_run (lr fb ud yaw : Z) (o : oracle) (d : t) :
  d !! "left_right_velocity" = Some lr ->
  d !! "forward_backward_velocity" = Some fb ->
  d !! "up_down_velocity" = Some ud ->
  d !! "yaw_velocity" = Some yaw ->
  update_rc o d
  = Outcome [EvSendRc lr fb ud yaw] d
      (if o send_rc_control then Raise (ExternalError send_rc_control)
       else Ok tt).
Proof.
  intros Hlr Hfb Hud Hyaw. unfold update_rc.
  repeat (erewrite bind_step by (apply getattr_Some; eassumption)).
  reflexivity.
Qed.

(** C5: whatever the state of the controller, after [stop] each of the
    four velocity attributes reads 0, and the [update_rc] that follows
    sends the command (0, 0, 0, 0). *)
Theorem stop_then_snapshot_zero (o : oracle) (d : t) :
  Forall (fun name => out_result (getattr name o (out_state (stop o d))) = Ok 0)
    axes
  /\ out_log ((stop ;; update_rc) o d) = [EvSendRc 0 0 0 0].
Proof.
  assert (H : forall name, In name axes ->
            out_state (stop o d) !! name = Some 0)
    by (intros name Hin; apply (stop_axis name o d Hin)).
  split.
  - apply List.Forall_forall. intros name Hin.
    rewrite (getattr_Some name 0 o _ (H name Hin)). reflexivity.
  - rewrite (bind_Ok stop _ o d tt) by reflexivity.
    rewrite (update_rc_run 0 0 0 0) by (apply H; simpl; tauto).
    reflexivity.
Qed.

(** *** Repeated calls on one axis *)

Section Repeated.
Variables (name : string) (f : Z -> Z) (m : M t unit).
Hypothesis m_run : forall v o d,
  d !! name = Some v -> m o d = Outcome [] (<[name := f v]> d) (Ok tt).

Lemma times_axis (n : nat) : forall (o : oracle) (d : t) (v : Z),
  d !! name = Some v ->
  out_result (times n m o d) = Ok tt
  /\ out_log (times n m o d) = []
  /\ axis (out_state (times n m o d)) name = Some (Nat.iter n f v).
Proof.
  induction n as [|n IH]; intros o d v Hv.
  - simpl. auto.
  - cbn [times]. rewrite (bind_step m _ o d _ _ tt (m_run v o d Hv)).
    destruct (IH o (<[name := f v]> d) (f v)) as (Hr & Hl & Hs).
    { apply lookup_insert_eq. }
    cbn zeta. cbn [out_result out_log out_state].
    rewrite Hr, Hl, Hs, Nat.iter_succ_r. auto.
Qed.

End Repeated.

Lemma iter_plus_step (n : nat) :
  Nat.iter n (plus_step 100) 0 = Z.min (3 * Z.of_nat n) 100.
Proof.
  induction n as [|n IH].
  - reflexivity.
  - rewrite Nat.iter_succ, IH. unfold plus_step. lia.
Qed.

Lemma iter_waste_step (n : nat) (v : Z) :
  Nat.iter n waste_step v
  = if 0 <? v then Z.max 0 (v - 10 * Z.of_nat n)
    else Z.min 0 (v + 10 * Z.of_nat n).
Proof.
  induction n as [|n IH].
  - simpl. destruct (0 <? v) eqn:E; [apply Z.ltb_lt in E | apply Z.ltb_ge in E]; lia.
  - rewrite Nat.iter_succ, IH. unfold waste_step.
    destruct (0 <? v) eqn:E; [apply Z.ltb_lt in E | apply Z.ltb_ge in E];
      match goal with
      | |- context [0 <? ?x] =>
          destruct (0 <? x) eqn:E';
          [apply Z.ltb_lt in E' | apply Z.ltb_ge in E']
      end; lia.
Qed.

(** C8: starting from value 0, the value after [n] calls of
    [_gain_velocity_plus] with maximum 100 is min(3n, 100): it is 99 after
    33 calls, exactly 100 at the 34th call, and 100 after every further
    call. *)
Theorem gain_positive_34_calls (name : string) (o : oracle) (d : t) :
  axis d name = Some 0 ->
  let value n :=
    axis (out_state (times n (_gain_velocity_plus name 100) o d)) name in
  (forall n, value n = Some (Z.min (3 * Z.of_nat n) 100))
  /\ value 33%nat = Some 99
  /\ value 34%nat = Some 100
  /\ (forall n, (34 <= n)%nat -> value n = Some 100).
Proof.
  intros H0 value.
  assert (Hn : forall n, value n = Some (Z.min (3 * Z.of_nat n) 100)).
  { intros n. unfold value.
    destruct (times_axis name (plus_step 100) (_gain_velocity_plus name 100)
                (plus_run name 100) n o d 0 H0) as (_ & _ & Hs).
    rewrite Hs, iter_plus_step. reflexivity. }
  split; [exact Hn|]. split; [apply (Hn 33%nat)|].
  split; [apply (Hn 34%nat)|].
  intros n Hle. rewrite Hn. f_equal. lia.
Qed.

Lemma gain_positive_34_calls_witness :
  axis (out_state (times 34 (_gain_velocity_plus "yaw_velocity" 100)
                     no_failure initial)) "yaw_velocity"
  = Some 100.
Proof.
  refine (proj1 (proj2 (proj2
            (gain_positive_34_calls "yaw_velocity" no_failure initial _)))).
  reflexivity.
Defined.

(** C3: from every value in [-100, 100], repeated calls of
    [_waste_velocity] never carry the value past zero or change its sign,
    and the value is exactly 0 after ten calls and after every later one.
    From 5 one call yields 0; from 0 a call leaves 0; from 100 the values
    are 100, 90, ..., 10, 0 and the tenth call is the first to reach 0. *)
Theorem decay_reaches_zero (name : string) (o : oracle) (d : t) (v : Z) :
  axis d name = Some v ->
  -100 <= v <= 100 ->
  let value n :=
    axis (out_state (times n (_waste_velocity name) o d)) name in
  (forall n, exists w, value n = Some w
                       /\ (0 <= v -> 0 <= w <= v)
                       /\ (v <= 0 -> v <= w <= 0))
  /\ (forall n, (10 <= n)%nat -> value n = Some 0)
  /\ (v = 5 -> value 1%nat = Some 0)
  /\ (v = 0 -> value 1%nat = Some 0)
  /\ (v = 100 ->
      List.map value (List.seq 0 12)
      = [Some 100; Some 90; Some 80; Some 70; Some 60; Some 50; Some 40;
         Some 30; Some 20; Some 10; Some 0; Some 0]).
Proof.
  intros Hv Hb value.
  assert (Hn : forall n, value n = Some (Nat.iter n waste_step v)).
  { intros n. unfold value.
    destruct (times_axis name waste_step (_waste_velocity name)
                (waste_run name) n o d v Hv) as (_ & _ & Hs).
    exact Hs. }
  repeat split.
  - intros n. exists (Nat.iter n waste_step v). split; [apply Hn|].
    rewrite iter_waste_step.
    destruct (0 <? v) eqn:E; [apply Z.ltb_lt in E | apply Z.ltb_ge in E]; lia.
  - intros n Hle. rewrite Hn, iter_waste_step. f_equal.
    destruct (0 <? v) eqn:E; [apply Z.ltb_lt in E | apply Z.ltb_ge in E]; lia.
  - intros ->. rewrite Hn. reflexivity.
  - intros ->. rewrite Hn. reflexivity.
  - intros ->. cbn [List.seq List.map]. rewrite !Hn. reflexivity.
Qed.

Lemma decay_reaches_zero_witness :
  axis (out_state (times 10 (_waste_velocity "yaw_velocity") no_failure
                     (<["yaw_velocity" := 100]> initial))) "yaw_velocity"
  = Some 0.
Proof.
  refine (proj1 (proj2 (decay_reaches_zero "yaw_velocity" no_failure
                          (<["yaw_velocity" := 100]> initial) 100 _ _))
            10%nat _).
  - reflexivity.
  - lia.
  - lia.
Defined.

(** C9, as amended: for a negative value [v], one call of
    [_gain_velocity_plus] with maximum 100 leaves max(0, v + 3): that is 0
    when v <= -3, and 1 or 2 when v is -2 or -1. *)
Theorem gain_positive_from_negative (name : string) (o : oracle) (d : t)
    (v : Z) :
  axis d name = Some v ->
  v < 0 ->
  let value := axis (out_state (_gain_velocity_plus name 100 o d)) name in
  value = Some (Z.max 0 (v + 3))
  /\ (v <= -3 -> value = Some 0)
  /\ (v = -2 -> value = Some 1)
  /\ (v = -1 -> value = Some 2).
Proof.
  intros Hv Hneg value.
  assert (H : value = Some (plus_step 100 v)).
  { unfold value. rewrite (plus_run name 100 v o d Hv). apply lookup_insert_eq. }
  rewrite H. unfold plus_step.
  repeat split; intros; f_equal; lia.
Qed.

Lemma gain_positive_from_negative_witness :
  axis (out_state (_gain_velocity_plus "yaw_velocity" 100 no_failure
                     (<["yaw_velocity" := -7]> initial))) "yaw_velocity"
  = Some 0.
Proof.
  refine (proj1 (proj2
            (gain_positive_from_negative "yaw_velocity" no_failure
               (<["yaw_velocity" := -7]> initial) (-7) _ _)) _).
  - reflexivity.
  - lia.
  - lia.
Defined.

(** C9 fails as stated: six calls take the yaw velocity from its initial 0
    to -1 (12 after four [ccw], 2 after [waste_yaw], -1 after [cw]); the
    value is negative, and one more [ccw] leaves 2, not 0. *)
Lemma gain_positive_from_minus_one :
  let before :=
    out_state
      (calls ["ccw"; "ccw"; "ccw"; "ccw"; "waste_yaw"; "cw"] no_failure
         initial) in
  axis before "yaw_velocity" = Some (-1)
  /\ axis (out_state (ccw no_failure before)) "yaw_velocity" = Some 2.
Proof. vm_compute. split; reflexivity. Qed.

(** *** The clamp range is an invariant *)

Lemma in_range_insert (name : string) (x : Z) (d : t) :
  in_range d -> -100 <= x <= 100 -> in_range (<[name := x]> d).
Proof.
  intros Hr Hx n Hn. unfold axis.
  destruct (decide (n = name)) as [->|Hne].
  - exists x. split; [apply lookup_insert_eq | exact Hx].
  - rewrite lookup_insert_ne by congruence. apply Hr, Hn.
Qed.

Lemma plus_in_range (name : string) (o : oracle) (d : t) :
  In name axes -> in_range d ->
  out_result (_gain_velocity_plus name 100 o d) = Ok tt
  /\ in_range (out_state (_gain_velocity_plus name 100 o d)).
Proof.
  intros Hn Hr. destruct (Hr name Hn) as (v & Hv & Hb).
  rewrite (plus_run name 100 v o d Hv). split; [reflexivity|].
  apply in_range_insert; [exact Hr | unfold plus_step; lia].
Qed.

Lemma minus_in_range (name : string) (o : oracle) (d : t) :
  In name axes -> in_range d ->
  out_result (_gain_velocity_minus name (-100) o d) = Ok tt
  /\ in_range (out_state (_gain_velocity_minus name (-100) o d)).
Proof.
  intros Hn Hr. destruct (Hr name Hn) as (v & Hv & Hb).
  rewrite (minus_run name (-100) v o d Hv). split; [reflexivity|].
  apply in_range_insert; [exact Hr | unfold minus_step; lia].
Qed.

Lemma waste_in_range (name : string) (o : oracle) (d : t) :
  In name axes -> in_range d ->
  out_result (_waste_velocity name o d) = Ok tt
  /\ in_range (out_state (_waste_velocity name o d)).
Proof.
  intros Hn Hr. destruct (Hr name Hn) as (v & Hv & Hb).
  rewrite (waste_run name v o d Hv). split; [reflexivity|].
  apply in_range_insert; [exact Hr|]. unfold waste_step.
  destruct (0 <? v) eqn:E; [apply Z.ltb_lt in E | apply Z.ltb_ge in E]; lia.
Qed.

Lemma stop_in_range (o : oracle) (d : t) :
  out_result (stop o d) = Ok tt /\ in_range (out_state (stop o d)).
Proof.
  split; [reflexivity|]. intros name Hn. exists 0.
  split; [apply stop_axis, Hn | lia].
Qed.

Lemma initial_in_range : in_range initial.
Proof.
  intros name Hn. exists 0. split; [|lia].
  pose proof (stop_axis name no_failure
                (<["height" := 1080]> (<["width" := 1920]> ∅)) Hn) as H.
  rewrite stop_run in H. cbn [out_state] in H.
  rewrite initial_eq. exact H.
Qed.

Lemma op_in_range (name : string) (o : oracle) (d : t) :
  In name controller_ops -> in_range d ->
  out_result (call name o d) = Ok tt /\ in_range (out_state (call name o d)).
Proof.
  intros Hm Hr. unfold controller_ops, gain_positive, gain_negative, decay in Hm.
  cbn [app In] in Hm.
  repeat (destruct Hm as [<-|Hm];
          [eval_lookup;
           lazymatch goal with
           | |- context [right] => apply plus_in_range
           | |- context [forward] => apply plus_in_range
           | |- context [up] => apply plus_in_range
           | |- context [ccw] => apply plus_in_range
           | |- context [left] => apply minus_in_range
           | |- context [backward] => apply minus_in_range
           | |- context [down] => apply minus_in_range
           | |- context [cw] => apply minus_in_range
           | |- context [stop] => apply stop_in_range
           | |- _ => apply waste_in_range
           end;
           first [ exact Hr | unfold axes; cbn [In]; tauto ]|]).
  destruct Hm.
Qed.

Lemma calls_in_range (names : list string) (o : oracle) : forall d : t,
  List.Forall (fun name => In name controller_ops) names -> in_range d ->
  out_result (calls names o d) = Ok tt
  /\ in_range (out_state (calls names o d)).
Proof.
  induction names as [|name names IH]; intros d Hall Hr.
  - split; [reflexivity | exact Hr].
  - apply List.Forall_cons_iff in Hall. destruct Hall as [Hm Hall].
    destruct (op_in_range name o d Hm Hr) as [Hok Hr'].
    unfold calls. cbn [for_each]. rewrite (bind_Ok (call name) _ o d tt Hok).
    cbn [out_result out_state]. apply (IH _ Hall Hr').
Qed.

(** C2: from the state [Drone.__init__] leaves, after every call of a
    sequence of velocity methods (the gains, the decays and [stop], in any
    order and on any axes) each of the four velocities is set and lies in
    [-100, 100], and no call raises.  The bound holds after each prefix of
    the sequence, hence after every call. *)
Theorem velocity_in_range (ms : list string) (o : oracle) (k : nat) :
  List.Forall (fun name => In name controller_ops) ms ->
  let r := calls (firstn k ms) o initial in
  out_result r = Ok tt
  /\ List.Forall
       (fun name => exists v, axis (out_state r) name = Some v
                              /\ -100 <= v <= 100)
       axes.
Proof.
  intros Hall r.
  destruct (calls_in_range (firstn k ms) o initial) as [Hok Hr].
  - apply List.Forall_forall. intros m Hm.
    apply (proj1 (List.Forall_forall _ ms) Hall).
    rewrite <- (List.firstn_skipn k ms). apply List.in_or_app. left. exact Hm.
  - apply initial_in_range.
  - split; [exact Hok|]. apply List.Forall_forall. exact Hr.
Qed.

Lemma velocity_in_range_witness :
  List.Forall
    (fun name =>
       exists v,
         axis (out_state
                 (calls ["right"; "right"; "cw"; "waste_yaw"; "stop"; "up"]
                    no_failure initial)) name = Some v
         /\ -100 <= v <= 100)
    axes.
Proof.
  refine (proj2 (velocity_in_range
                   ["right"; "right"; "cw"; "waste_yaw"; "stop"; "up"]
                   no_failure 6 _)).
  unfold controller_ops, gain_positive, gain_negative, decay. cbn [app].
  repeat (apply List.Forall_cons;
          [cbn [In]; repeat first [left; reflexivity | right]|]).
  apply List.Forall_nil.
Defined.

End ControllerFacts.

(** ** Computations that keep a relation on the state *)

Section Preserves.
Context {S : Type} (R : S -> S -> Prop).
Hypothesis R_trans : forall s1 s2 s3, R s1 s2 -> R s2 s3 -> R s1 s3.

Lemma preserves_bind {A B} (m : M S A) (f : A -> M S B) :
  preserves R m -> (forall a, preserves R (f a)) -> preserves R (bind m f).
Proof.
  intros Hm Hf o s. unfold bind.
  destruct (out_result (m o s)) as [a|e]; simpl.
  - apply (R_trans _ _ _ (Hm o s)), Hf.
  - apply Hm.
Qed.

End Preserves.

(** ** The methods of the devices, seen through the trace *)

Module DeviceFacts.

Ltac unfold_methods :=
  unfold Drone.release, Drone.get_frame, Drone.update_rc, Drone.right,
    Drone.left, Drone.waste_left_right, Drone.forward, Drone.backward,
    Drone.waste_forward_backward, Drone.up, Drone.down, Drone.waste_up_down,
    Drone.ccw, Drone.cw, Drone.waste_yaw, Drone.stop, Drone.land,
    Drone.takeoff, Drone.emergency, Drone._gain_velocity_plus,
    Drone._gain_velocity_minus, Drone._waste_velocity, Drone.getattr,
    Drone.setattr,
    NotebookCamera.get_frame, NotebookCamera.release, NotebookCamera.left,
    NotebookCamera.right, NotebookCamera.forward, NotebookCamera.backward,
    NotebookCamera.up, NotebookCamera.down, NotebookCamera.cw,
    NotebookCamera.ccw, NotebookCamera.land, NotebookCamera.takeoff,
    NotebookCamera.emergency, NotebookCamera.stop.

(** No method of either device class calls a method of the device. *)
Lemma drone_methods_no_invoke :
  List.Forall (fun nm => quiet is_invoke (snd nm)) Drone.methods.
Proof.
  unfold Drone.methods.
  repeat (apply List.Forall_cons;
          [cbn [snd]; unfold_methods; solve [repeat quiet_step]|]).
  apply List.Forall_nil.
Qed.

Lemma notebook_methods_no_invoke :
  List.Forall (fun nm => quiet is_invoke (snd nm)) NotebookCamera.methods.
Proof.
  unfold NotebookCamera.methods.
  repeat (apply List.Forall_cons;
          [cbn [snd]; unfold_methods; solve [repeat quiet_step]|]).
  apply List.Forall_nil.
Qed.

(** Of the methods of [Drone] only [update_rc] and [release] send a
    command; no method of [NotebookCamera] does. *)
Lemma drone_methods_no_send :
  List.Forall
    (fun nm => fst nm = "update_rc" \/ fst nm = "release"
               \/ quiet is_send (snd nm))
    Drone.methods.
Proof.
  unfold Drone.methods.
  repeat (apply List.Forall_cons;
          [cbn [fst snd];
           first [ left; reflexivity
                 | right; left; reflexivity
                 | right; right; unfold_methods; solve [repeat quiet_step] ]|]).
  apply List.Forall_nil.
Qed.

Lemma notebook_methods_no_send :
  List.Forall (fun nm => quiet is_send (snd nm)) NotebookCamera.methods.
Proof.
  unfold NotebookCamera.methods.
  repeat (apply List.Forall_cons;
          [cbn [snd]; unfold_methods; solve [repeat quiet_step]|]).
  apply List.Forall_nil.
Qed.

End DeviceFacts.

(** ** The input mapper *)

Module MapperFacts.
Import App Mapper DeviceFacts.

(** A call of a device method records its own name and nothing else that
    is a call on the device. *)
Lemma drone_call_invoked (p : event -> bool) (name : string)
    (o : oracle) (self : t) :
  (forall e, p e = true -> is_invoke e = true) ->
  out_result (drone_call name o self) = Ok tt ->
  List.filter p (out_log (drone_call name o self))
  = List.filter p [EvInvoke name].
Proof.
  intros Hp. unfold drone_call.
  rewrite (bind_step get _ o self self [] self) by reflexivity.
  cbn zeta. cbn [out_result out_log app].
  destruct (drone self) as [c|d].
  - destruct (lookup_method NotebookCamera.methods name) as [m|] eqn:E;
      [|discriminate].
    intros _. apply lookup_method_In in E.
    pose proof (proj1 (List.Forall_forall _ _) notebook_methods_no_invoke
                  _ E) as Hq.
    cbn [snd] in Hq. apply (quiet_weaken p) in Hq; [|exact Hp].
    rewrite (bind_step (emit (EvInvoke name)) _ o self self
               [EvInvoke name] tt) by reflexivity.
    cbn zeta. cbn [out_log]. rewrite !List.filter_app.
    unfold zoom. cbn [out_log snd]. rewrite (Hq o c).
    rewrite List.app_nil_r. reflexivity.
  - destruct (lookup_method Drone.methods name) as [m|] eqn:E;
      [|discriminate].
    intros _. apply lookup_method_In in E.
    pose proof (proj1 (List.Forall_forall _ _) drone_methods_no_invoke
                  _ E) as Hq.
    cbn [snd] in Hq. apply (quiet_weaken p) in Hq; [|exact Hp].
    rewrite (bind_step (emit (EvInvoke name)) _ o self self
               [EvInvoke name] tt) by reflexivity.
    cbn zeta. cbn [out_log]. rewrite !List.filter_app.
    unfold zoom. cbn [out_log snd]. rewrite (Hq o d).
    rewrite List.app_nil_r. reflexivity.
Qed.

Lemma drone_call_quiet (p : event -> bool) (name : string) :
  (forall e, p e = true -> is_invoke e = true) ->
  p (EvInvoke name) = false ->
  quiet p (drone_call name).
Proof.
  intros Hp Hname. unfold drone_call.
  apply quiet_bind; [apply quiet_get|]. intros self.
  destruct (drone self) as [c|d].
  - destruct (lookup_method NotebookCamera.methods name) as [m|] eqn:E;
      [|apply quiet_raise].
    apply lookup_method_In in E.
    apply quiet_bind; [apply quiet_emit, Hname|]. intros _.
    apply quiet_zoom. apply (quiet_weaken p is_invoke); [exact Hp|].
    apply (proj1 (List.Forall_forall _ _) notebook_methods_no_invoke _ E).
  - destruct (lookup_method Drone.methods name) as [m|] eqn:E;
      [|apply quiet_raise].
    apply lookup_method_In in E.
    apply quiet_bind; [apply quiet_emit, Hname|]. intros _.
    apply quiet_zoom. apply (quiet_weaken p is_invoke); [exact Hp|].
    apply (proj1 (List.Forall_forall _ _) drone_methods_no_invoke _ E).
Qed.

Lemma calls_pair_is_invoke (pr : pair) (e : event) :
  calls_pair pr e = true -> is_invoke e = true.
Proof. destruct e; simpl; congruence. Qed.

(** The discrete events call no method of an axis pair. *)
Lemma handle_event_quiet (pr : pair) (event : pg_event) :
  In pr pairs -> quiet (calls_pair pr) (handle_event event).
Proof.
  intros Hin. unfold pairs in Hin. cbn [In] in Hin.
  assert (Hland : calls_pair pr (EvInvoke "land") = false
                  /\ calls_pair pr (EvInvoke "takeoff") = false
                  /\ calls_pair pr (EvInvoke "emergency") = false).
  { destruct Hin as [<-|[<-|[<-|[<-|[]]]]]; repeat split; reflexivity. }
  destruct Hland as (Hl & Ht & He).
  unfold handle_event. apply quiet_bind.
  - destruct event; repeat quiet_step.
  - intros _.
    destruct event as [|k|]; [apply quiet_ret| |apply quiet_ret].
    destruct k;
      first [ apply quiet_ret
            | solve [repeat quiet_step]
            | apply drone_call_quiet;
              [apply calls_pair_is_invoke | assumption] ].
Qed.

(** One [if]/[elif]/[else] chain of [on_event]. *)
Lemma chain_invoked (pr : pair) (held : key -> bool) (k1 k2 : key)
    (n1 n2 n3 : string) (o : oracle) (self : t) :
  let chain :=
    if held k1 then drone_call n1
    else if held k2 then drone_call n2
    else drone_call n3 in
  out_result (chain o self) = Ok tt ->
  List.filter (calls_pair pr) (out_log (chain o self))
  = List.filter (calls_pair pr)
      [EvInvoke (if held k1 then n1 else if held k2 then n2 else n3)].
Proof.
  cbn zeta. destruct (held k1); [|destruct (held k2)];
    apply drone_call_invoked; apply calls_pair_is_invoke.
Qed.

Lemma on_event_invoked (pr : pair) (evs : list pg_event) (held : key -> bool)
    (o : oracle) (self : t) :
  In pr pairs ->
  out_result (on_event evs held o self) = Ok tt ->
  invoked_of pr (out_log (on_event evs held o self))
  = List.filter (calls_pair pr)
      (List.map (fun q => EvInvoke (selected held q)) pairs).
Proof.
  intros Hin Hok. unfold invoked_of. unfold on_event in *.
  apply bind_Ok_split in Hok. destruct Hok as ([] & _ & Hok & -> & _).
  set (s0 := out_state (for_each evs handle_event o self)) in *.
  apply bind_Ok_split in Hok. destruct Hok as ([] & H1 & Hok & -> & _).
  set (s1 := out_state (_ o s0)) in *.
  apply bind_Ok_split in Hok. destruct Hok as ([] & H2 & Hok & -> & _).
  set (s2 := out_state (_ o s1)) in *.
  apply bind_Ok_split in Hok. destruct Hok as ([] & H3 & Hok & -> & _).
  set (s3 := out_state (_ o s2)) in *.
  rewrite !List.filter_app.
  rewrite (quiet_for_each (calls_pair pr) evs handle_event
             (fun e => handle_event_quiet pr e Hin) o self).
  rewrite (chain_invoked pr held K_w K_s "forward" "backward"
             "waste_forward_backward" o s0 H1).
  rewrite (chain_invoked pr held K_a K_d "left" "right"
             "waste_left_right" o s1 H2).
  rewrite (chain_invoked pr held K_SPACE K_c "up" "down"
             "waste_up_down" o s2 H3).
  rewrite (chain_invoked pr held K_q K_e "cw" "ccw"
             "waste_yaw" o s3 Hok).
  rewrite <- !List.filter_app. reflexivity.
Qed.

(** C1, as amended: on a tick whose [on_event] returns, exactly one method
    of each axis pair is called, chosen by the [if]/[elif]/[else] chain of
    the pair.  The key tested first wins: with both keys of a pair held the
    call is the gain of the first key ([forward] for W/S, [left] for A/D,
    [up] for SPACE/C, [cw] for Q/E).  The decay method of the pair is the
    one called exactly when neither key is held. *)
Theorem on_event_dispatch (pr : pair) (evs : list pg_event)
    (held : key -> bool) (o : oracle) (self : t) :
  In pr pairs ->
  out_result (on_event evs held o self) = Ok tt ->
  let called := invoked_of pr (out_log (on_event evs held o self)) in
  called = [EvInvoke (selected held pr)]
  /\ (held (first_key pr) = true -> called = [EvInvoke (first_method pr)])
  /\ (held (first_key pr) = false -> held (second_key pr) = true ->
      called = [EvInvoke (second_method pr)])
  /\ (called = [EvInvoke (waste_method pr)]
      <-> held (first_key pr) = false /\ held (second_key pr) = false).
Proof.
  intros Hin Hok called.
  assert (Hc : called = [EvInvoke (selected held pr)]).
  { unfold called. rewrite (on_event_invoked pr evs held o self Hin Hok).
    unfold pairs in *. cbn [In] in Hin. cbn [List.map]. unfold selected.
    destruct Hin as [<-|[<-|[<-|[<-|[]]]]]; cbn [first_key second_key
      first_method second_method waste_method];
      destruct (held K_w), (held K_s), (held K_a), (held K_d),
        (held K_SPACE), (held K_c), (held K_q), (held K_e); reflexivity. }
  split; [exact Hc|]. rewrite Hc. unfold selected.
  unfold pairs in Hin. cbn [In] in Hin.
  destruct Hin as [<-|[<-|[<-|[<-|[]]]]]; cbn [first_key second_key
    first_method second_method waste_method];
    (split; [intros ->; reflexivity|]);
    (split; [intros -> ->; reflexivity|]);
    (split; [|intros [-> ->]; reflexivity]);
    match goal with
    | |- context [if held ?k1 then _ else if held ?k2 then _ else _] =>
        destruct (held k1), (held k2)
    end; intros H; solve [auto | discriminate H].
Qed.

Lemma on_event_dispatch_witness :
  invoked_of (Pair K_w "forward" K_s "backward" "waste_forward_backward")
    (out_log (on_event [] all_held no_failure Loop.started))
  = [EvInvoke "forward"].
Proof.
  refine (proj1 (on_event_dispatch
                   (Pair K_w "forward" K_s "backward" "waste_forward_backward")
                   [] all_held no_failure Loop.started _ _)).
  - cbn [In pairs]. left. reflexivity.
  - vm_compute. reflexivity.
Defined.

(** C1 fails as stated: with every direction key held, from an [App] on a
    freshly connected drone, [on_event] calls [forward], [left], [up] and
    [cw] and none of the decay methods; the four velocities move from 0 to
    3, -3, 3 and -3, where a decay would have left them at 0. *)
Lemma both_keys_held_gain :
  let r := on_event [] all_held no_failure Loop.started in
  all_held K_w = true /\ all_held K_s = true
  /\ out_result r = Ok tt
  /\ In (EvInvoke "forward") (out_log r)
  /\ ~ In (EvInvoke "waste_forward_backward") (out_log r)
  /\ invoked (out_log r)
     = [EvInvoke "forward"; EvInvoke "left"; EvInvoke "up"; EvInvoke "cw"]
  /\ (exists d, drone (out_state r) = ADrone d
                /\ d !! "forward_backward_velocity" = Some 3
                /\ d !! "left_right_velocity" = Some (-3)
                /\ d !! "up_down_velocity" = Some 3
                /\ d !! "yaw_velocity" = Some (-3)).
Proof.
  cbn zeta. do 2 (split; [reflexivity|]).
  split; [vm_compute; reflexivity|].
  split; [vm_compute; auto|].
  split.
  { vm_compute. intros H.
    repeat (destruct H as [H|H]; [discriminate H|]). exact H. }
  split; [vm_compute; reflexivity|].
  eexists. split; [reflexivity|]. vm_compute. auto.
Qed.

End MapperFacts.

(** ** The telemetry panel *)

Module InfoFacts.
Import App Clock.

Lemma drone_getattr_state (name : string) (o : oracle) (self : t) :
  out_state (drone_getattr name o self) = self.
Proof. unfold drone_getattr, bind, get. simpl. destruct (drone self); reflexivity. Qed.

(** [Info._update] draws; it changes no field of the application. *)
Lemma Info__update_state : preserves eq Info__update.
Proof.
  assert (Hb : forall A B (m : M t A) (f : A -> M t B),
            preserves eq m -> (forall a, preserves eq (f a)) ->
            preserves eq (bind m f)).
  { intros A B m f Hm Hf. apply preserves_bind; [congruence | exact Hm | exact Hf]. }
  unfold Info__update.
  repeat lazymatch goal with
         | |- preserves _ (bind _ _) => apply Hb; [|intros ?]
         end;
    first [ intros o s; symmetry; apply drone_getattr_state
          | intros o s; reflexivity ].
Qed.

Lemma Info__update_refreshed (o : oracle) (self : t) :
  refreshed (out_log (Info__update o self)) = true.
Proof.
  unfold Info__update.
  rewrite (bind_step (emit EvAreaFill) _ o self self [EvAreaFill] tt)
    by reflexivity.
  reflexivity.
Qed.

(** C7, as amended: [Info.update] refreshes the panel on a tick exactly when
    the seconds field of the local time differs from the one stored at the
    last refresh (or at construction); afterwards the stored field is the
    current one. *)
Theorem info_update_throttle (now : Z) (o : oracle) (self : t) :
  let r := Info_update now o self in
  (refreshed (out_log r) = true <-> now <> last_upd_time self)
  /\ last_upd_time (out_state r) = now.
Proof.
  cbn zeta. unfold Info_update.
  rewrite (bind_step get _ o self self [] self) by reflexivity.
  cbn zeta. cbn [out_log out_state app].
  destruct (now =? last_upd_time self) eqn:E; cbn [negb].
  - apply Z.eqb_eq in E. simpl. split; [|congruence].
    split; [discriminate | congruence].
  - apply Z.eqb_neq in E.
    rewrite (bind_step (put (set_last_upd_time now self)) _ o self
               (set_last_upd_time now self) [] tt) by reflexivity.
    cbn zeta. cbn [out_log out_state app].
    rewrite Info__update_refreshed.
    rewrite <- (Info__update_state o (set_last_upd_time now self)).
    split; [|reflexivity]. split; [intros _; exact E | reflexivity].
Qed.

(** C7 fails as stated.  When exactly one minute passes between two ticks
    the seconds field is the same and the panel is not refreshed, although
    sixty seconds have elapsed; and a tick 100 ms after a refresh at 0.9 s
    refreshes again, because the seconds field has moved from 0 to 1. *)
Lemma same_second_of_next_minute :
  (1000 <= 60000 - 0
   /\ refreshed (out_log (Info_update (tm_sec 60000) no_failure
                            (refreshed_at 0))) = false)
  /\ (1000 - 900 < 1000
      /\ refreshed (out_log (Info_update (tm_sec 1000) no_failure
                               (refreshed_at 900))) = true).
Proof. split; (split; [lia | vm_compute; reflexivity]). Qed.

End InfoFacts.

(** ** The control loop *)

Module LoopFacts.
Import App Loop DeviceFacts.

(** *** Which calls send a command *)

Lemma drone_call_no_send (name : string) :
  name <> "update_rc" -> name <> "release" ->
  quiet is_send (drone_call name).
Proof.
  intros Hu Hr. unfold drone_call.
  apply quiet_bind; [apply quiet_get|]. intros self.
  destruct (drone self) as [c|d].
  - destruct (lookup_method NotebookCamera.methods name) as [m|] eqn:E;
      [|apply quiet_raise].
    apply lookup_method_In in E.
    apply quiet_bind; [apply quiet_emit; reflexivity|]. intros _.
    apply quiet_zoom.
    apply (proj1 (List.Forall_forall _ _) notebook_methods_no_send _ E).
  - destruct (lookup_method Drone.methods name) as [m|] eqn:E;
      [|apply quiet_raise].
    apply lookup_method_In in E.
    apply quiet_bind; [apply quiet_emit; reflexivity|]. intros _.
    apply quiet_zoom.
    destruct (proj1 (List.Forall_forall _ _) drone_methods_no_send _ E)
      as [H|[H|H]]; [contradiction | contradiction | exact H].
Qed.

Lemma drone_getattr_no_send (name : string) :
  quiet is_send (drone_getattr name).
Proof.
  unfold drone_getattr. apply quiet_bind; [apply quiet_get|]. intros self.
  destruct (drone self); [apply quiet_raise|].
  apply quiet_zoom. unfold Drone.getattr. repeat quiet_step.
Qed.

Ltac no_send :=
  repeat first
    [ quiet_step
    | apply drone_getattr_no_send
    | apply drone_call_no_send; discriminate ].

Lemma on_info_no_send (now : Z) : quiet is_send (on_info now).
Proof. unfold on_info, Info_update, Info__update. no_send. Qed.

Lemma on_event_no_send (evs : list pg_event) (held : key -> bool) :
  quiet is_send (on_event evs held).
Proof. unfold on_event, handle_event. no_send. Qed.

Lemma on_render_no_send : quiet is_send on_render.
Proof. unfold on_render, draw_frame. no_send. Qed.

(** *** The flush *)

Lemma update_rc_Ok (o : oracle) (d : Drone.t) :
  out_result (Drone.update_rc o d) = Ok tt ->
  exists lr fb ud yaw,
    d !! "left_right_velocity" = Some lr
    /\ d !! "forward_backward_velocity" = Some fb
    /\ d !! "up_down_velocity" = Some ud
    /\ d !! "yaw_velocity" = Some yaw
    /\ Drone.update_rc o d = Outcome [EvSendRc lr fb ud yaw] d (Ok tt).
Proof.
  intros Hok.
  destruct (d !! "left_right_velocity") as [lr|] eqn:Hlr.
  2: { unfold Drone.update_rc in Hok.
       erewrite bind_stop in Hok
         by (apply ControllerFacts.getattr_None; eassumption).
       discriminate Hok. }
  destruct (d !! "forward_backward_velocity") as [fb|] eqn:Hfb.
  2: { unfold Drone.update_rc in Hok.
       erewrite bind_step in Hok
         by (apply ControllerFacts.getattr_Some; eassumption).
       cbn zeta in Hok. cbn [out_result] in Hok.
       erewrite bind_stop in Hok
         by (apply ControllerFacts.getattr_None; eassumption).
       discriminate Hok. }
  destruct (d !! "up_down_velocity") as [ud|] eqn:Hud.
  2: { unfold Drone.update_rc in Hok.
       do 2 (erewrite bind_step in Hok
               by (apply ControllerFacts.getattr_Some; eassumption);
             cbn zeta in Hok; cbn [out_result] in Hok).
       erewrite bind_stop in Hok
         by (apply ControllerFacts.getattr_None; eassumption).
       discriminate Hok. }
  destruct (d !! "yaw_velocity") as [yaw|] eqn:Hyaw.
  2: { unfold Drone.update_rc in Hok.
       do 3 (erewrite bind_step in Hok
               by (apply ControllerFacts.getattr_Some; eassumption);
             cbn zeta in Hok; cbn [out_result] in Hok).
       erewrite bind_stop in Hok
         by (apply ControllerFacts.getattr_None; eassumption).
       discriminate Hok. }
  exists lr, fb, ud, yaw. repeat (split; [reflexivity|]).
  rewrite (ControllerFacts.update_rc_run lr fb ud yaw o d Hlr Hfb Hud Hyaw)
    in Hok |- *.
  cbn [out_result] in Hok. destruct (o send_rc_control); [discriminate|].
  reflexivity.
Qed.

Lemma set_drone_same (self : t) (dev : device) :
  drone self = dev -> set_drone dev self = self.
Proof. intros <-. destruct self; reflexivity. Qed.

(** A call of [update_rc] that returns was made on a [Drone]; it sends the
    four velocities once and changes nothing. *)
Lemma drone_call_update_rc (o : oracle) (self : t) :
  out_result (drone_call "update_rc" o self) = Ok tt ->
  exists d lr fb ud yaw,
    drone self = ADrone d
    /\ d !! "left_right_velocity" = Some lr
    /\ d !! "forward_backward_velocity" = Some fb
    /\ d !! "up_down_velocity" = Some ud
    /\ d !! "yaw_velocity" = Some yaw
    /\ drone_call "update_rc" o self
       = Outcome [EvInvoke "update_rc"; EvSendRc lr fb ud yaw] self (Ok tt).
Proof.
  unfold drone_call.
  rewrite (bind_step get _ o self self [] self) by reflexivity.
  cbn zeta. cbn [out_result out_log out_state app].
  destruct (drone self) as [c|d] eqn:Hd.
  - ControllerFacts.eval_lookup. discriminate.
  - ControllerFacts.eval_lookup.
    rewrite (bind_step (emit (EvInvoke "update_rc")) _ o self self
               [EvInvoke "update_rc"] tt) by reflexivity.
    cbn zeta. unfold zoom. cbn [out_result out_log out_state].
    intros Hok. apply update_rc_Ok in Hok.
    destruct Hok as (lr & fb & ud & yaw & Hlr & Hfb & Hud & Hyaw & Hrun).
    exists d, lr, fb, ud, yaw. repeat (split; [assumption || reflexivity|]).
    rewrite Hrun. cbn [out_result out_log out_state app].
    rewrite (set_drone_same self (ADrone d) Hd). reflexivity.
Qed.

Lemma update_rc_sends (o : oracle) (d : Drone.t) :
  (length (sends (out_log (Drone.update_rc o d))) <= 1)%nat.
Proof.
  unfold Drone.update_rc, sends.
  repeat lazymatch goal with
    | |- context [bind (Drone.getattr ?name) _ o d] =>
        destruct (d !! name) as [?v|] eqn:?E;
        [ erewrite bind_step
            by (apply ControllerFacts.getattr_Some; eassumption);
          cbn zeta; cbn [out_log app]
        | erewrite bind_stop
            by (apply ControllerFacts.getattr_None; eassumption);
          cbn; lia ]
    end.
  cbn. lia.
Qed.

Lemma drone_call_update_rc_sends (o : oracle) (self : t) :
  (length (sends (out_log (drone_call "update_rc" o self))) <= 1)%nat.
Proof.
  unfold drone_call.
  rewrite (bind_step get _ o self self [] self) by reflexivity.
  cbn zeta. cbn [out_log app].
  destruct (drone self) as [c|d]; ControllerFacts.eval_lookup.
  - cbn. lia.
  - rewrite (bind_step (emit (EvInvoke "update_rc")) _ o self self
               [EvInvoke "update_rc"] tt) by reflexivity.
    cbn zeta. unfold zoom. cbn [out_log app].
    apply (update_rc_sends o d).
Qed.

(** No pass through the loop body sends more than one command. *)
Lemma at_most_one_flush (ti : tick) (o : oracle) (self : t) :
  (length (sends (out_log (iteration ti o self))) <= 1)%nat.
Proof.
  unfold iteration, sends.
  rewrite (bind_step get _ o self self [] self) by reflexivity.
  cbn zeta. cbn [out_log app].
  rewrite (bind_step (emit (EvClockTick (fps self))) _ o self self
             [EvClockTick (fps self)] tt) by reflexivity.
  cbn zeta. cbn [out_log app List.filter is_send].
  rewrite (quiet_prefix is_send _ _ o self (on_info_no_send (now ti))).
  destruct (out_result (on_info (now ti) o self)); [|cbn; lia].
  rewrite (quiet_prefix is_send _ _ o _
             (on_event_no_send (events ti) (keys ti))).
  destruct (out_result (on_event _ _ o _)); [|cbn; lia].
  rewrite (quiet_prefix is_send _ _ o _ on_render_no_send).
  destruct (out_result (on_render o _)); [|cbn; lia].
  apply drone_call_update_rc_sends.
Qed.

(** Every pass that returns has sent exactly one command: its trace
    holds one [send_rc_control], made on a [Drone], whose arguments are the
    four velocities as the pass leaves them. *)
Lemma returning_pass_flushes (ti : tick) (o : oracle) (self : t) :
  (length (sends (out_log (iteration ti o self))) <= 1)%nat
  /\ (out_result (iteration ti o self) = Ok tt ->
      exists d lr fb ud yaw,
        drone (out_state (iteration ti o self)) = ADrone d
        /\ d !! "left_right_velocity" = Some lr
        /\ d !! "forward_backward_velocity" = Some fb
        /\ d !! "up_down_velocity" = Some ud
        /\ d !! "yaw_velocity" = Some yaw
        /\ sends (out_log (iteration ti o self)) = [EvSendRc lr fb ud yaw]).
Proof.
  split; [apply at_most_one_flush|].
  unfold iteration, sends. intros Hok.
  apply bind_Ok_split in Hok. destruct Hok as (self' & _ & Hok & -> & ->).
  cbn [get out_state out_log app] in *.
  apply bind_Ok_split in Hok. destruct Hok as ([] & _ & Hok & -> & ->).
  cbn [emit out_state out_log] in *.
  apply bind_Ok_split in Hok. destruct Hok as ([] & _ & Hok & -> & ->).
  set (s1 := out_state (on_info _ o self)) in *.
  apply bind_Ok_split in Hok. destruct Hok as ([] & _ & Hok & -> & ->).
  set (s2 := out_state (on_event _ _ o s1)) in *.
  apply bind_Ok_split in Hok. destruct Hok as ([] & _ & Hok & -> & ->).
  set (s3 := out_state (on_render o s2)) in *.
  apply drone_call_update_rc in Hok.
  destruct Hok as (d & lr & fb & ud & yaw & Hd & Hlr & Hfb & Hud & Hyaw & Hrun).
  exists d, lr, fb, ud, yaw. rewrite Hrun. cbn [out_state out_log].
  repeat (split; [assumption|]).
  rewrite !List.filter_app.
  rewrite (on_info_no_send (now ti) o self).
  rewrite (on_event_no_send (events ti) (keys ti) o s1).
  rewrite (on_render_no_send o s2).
  reflexivity.
Qed.

(** *** The termination flag *)

Lemma same_running_bind {A B} (m : M t A) (f : A -> M t B) :
  preserves same_running m -> (forall a, preserves same_running (f a)) ->
  preserves same_running (bind m f).
Proof.
  apply preserves_bind. unfold same_running. congruence.
Qed.

Lemma drone_call_running (name : string) :
  preserves same_running (drone_call name).
Proof.
  intros o self. unfold drone_call, bind, get, same_running. simpl.
  destruct (drone self).
  - destruct (lookup_method NotebookCamera.methods name); reflexivity.
  - destruct (lookup_method Drone.methods name); reflexivity.
Qed.

Lemma drone_getattr_running (name : string) :
  preserves same_running (drone_getattr name).
Proof.
  intros o self. rewrite InfoFacts.drone_getattr_state. reflexivity.
Qed.

Ltac keeps_running :=
  repeat lazymatch goal with
    | |- preserves same_running (bind _ _) =>
        apply same_running_bind; [|intros ?]
    | |- preserves same_running (drone_call _) => apply drone_call_running
    | |- preserves same_running (drone_getattr _) =>
        apply drone_getattr_running
    | |- preserves same_running (match ?x with _ => _ end) => destruct x
    | |- preserves same_running _ => intros ? ?; reflexivity
    end.

Lemma on_info_running (now : Z) : preserves same_running (on_info now).
Proof.
  intros o self. unfold on_info, Info_update, same_running.
  rewrite (bind_step get _ o self self [] self) by reflexivity.
  cbn zeta. cbn [out_state].
  destruct (negb (now =? last_upd_time self)); [|reflexivity].
  rewrite (bind_step (put (set_last_upd_time now self)) _ o self
             (set_last_upd_time now self) [] tt) by reflexivity.
  cbn zeta. cbn [out_state].
  rewrite <- (InfoFacts.Info__update_state o (set_last_upd_time now self)).
  reflexivity.
Qed.

Lemma on_render_running : preserves same_running on_render.
Proof. unfold on_render, draw_frame. keeps_running. Qed.

Lemma key_chains_running (held : key -> bool) (k1 k2 : key)
    (n1 n2 n3 : string) :
  preserves same_running
    (if held k1 then drone_call n1
     else if held k2 then drone_call n2
     else drone_call n3).
Proof. keeps_running. Qed.

(** An event either leaves [_running] as it was or clears it; a quit event
    clears it, and handling it returns. *)
Lemma handle_event_running (event : pg_event) (o : oracle) (self : t) :
  let r := handle_event event o self in
  (_running (out_state r) = _running self \/ _running (out_state r) = false)
  /\ (is_quit event = true ->
      _running (out_state r) = false /\ out_result r = Ok tt).
Proof.
  cbn zeta. destruct event as [|k|].
  - split; [right; reflexivity | intros _; split; reflexivity].
  - destruct k; try (split; [left; reflexivity | discriminate]).
    + split; [right; reflexivity | intros _; split; reflexivity].
    + split; [left | discriminate].
      unfold handle_event.
      rewrite (bind_step (ret tt) _ o self self [] tt) by reflexivity.
      cbn zeta. cbn [out_state]. apply drone_call_running.
    + split; [left | discriminate].
      unfold handle_event.
      rewrite (bind_step (ret tt) _ o self self [] tt) by reflexivity.
      cbn zeta. cbn [out_state]. apply drone_call_running.
    + split; [left | discriminate].
      unfold handle_event.
      rewrite (bind_step (ret tt) _ o self self [] tt) by reflexivity.
      cbn zeta. cbn [out_state]. apply drone_call_running.
  - split; [left; reflexivity | discriminate].
Qed.

(** After the events of a tick that returns, [_running] is cleared if one of
    them was a quit event or it was clear before. *)
Lemma events_running (evs : list pg_event) (o : oracle) : forall self : t,
  out_result (for_each evs handle_event o self) = Ok tt ->
  _running self = false \/ existsb is_quit evs = true ->
  _running (out_state (for_each evs handle_event o self)) = false.
Proof.
  induction evs as [|e evs IH]; intros self Hok Hq.
  - simpl in *. destruct Hq as [Hq|Hq]; [exact Hq | discriminate].
  - cbn [for_each] in *.
    apply bind_Ok_split in Hok. destruct Hok as ([] & _ & Hok & _ & ->).
    apply IH; [exact Hok|].
    destruct (handle_event_running e o self) as [Hkeep Hquit].
    cbn [existsb] in Hq.
    destruct (is_quit e) eqn:Eq.
    + left. apply Hquit. reflexivity.
    + destruct Hq as [Hq|Hq]; [|right; exact Hq].
      left. destruct Hkeep as [Hk|Hk]; congruence.
Qed.

(** A pass that returns and saw a quit event leaves [_running] cleared. *)
Lemma iteration_quits (ti : tick) (o : oracle) (self : t) :
  quits ti = true ->
  out_result (iteration ti o self) = Ok tt ->
  _running (out_state (iteration ti o self)) = false.
Proof.
  unfold iteration, quits. intros Hq Hok.
  apply bind_Ok_split in Hok. destruct Hok as (self' & _ & Hok & _ & ->).
  cbn [get out_state] in *.
  apply bind_Ok_split in Hok. destruct Hok as ([] & _ & Hok & _ & ->).
  cbn [emit out_state] in *.
  apply bind_Ok_split in Hok. destruct Hok as ([] & _ & Hok & _ & ->).
  set (s1 := out_state (on_info _ o self)) in *.
  apply bind_Ok_split in Hok. destruct Hok as ([] & Hev & Hok & _ & ->).
  set (s2 := out_state (on_event _ _ o s1)) in *.
  apply bind_Ok_split in Hok. destruct Hok as ([] & _ & Hok & _ & ->).
  set (s3 := out_state (on_render o s2)) in *.
  rewrite (drone_call_running "update_rc" o s3).
  unfold s3. rewrite (on_render_running o s2).
  unfold s2. unfold on_event in *.
  apply bind_Ok_split in Hev. destruct Hev as ([] & H0 & Hev & _ & ->).
  set (t0 := out_state (for_each _ handle_event o s1)) in *.
  assert (Ht0 : _running t0 = false)
    by (apply events_running; [exact H0 | right; exact Hq]).
  apply bind_Ok_split in Hev. destruct Hev as ([] & _ & Hev & _ & ->).
  set (t1 := out_state (_ o t0)) in *.
  apply bind_Ok_split in Hev. destruct Hev as ([] & _ & Hev & _ & ->).
  set (t2 := out_state (_ o t1)) in *.
  apply bind_Ok_split in Hev. destruct Hev as ([] & _ & Hev & _ & ->).
  set (t3 := out_state (_ o t2)) in *.
  rewrite (key_chains_running (keys ti) K_q K_e "cw" "ccw" "waste_yaw" o t3).
  unfold t3.
  rewrite (key_chains_running (keys ti) K_SPACE K_c "up" "down"
             "waste_up_down" o t2).
  unfold t2.
  rewrite (key_chains_running (keys ti) K_a K_d "left" "right"
             "waste_left_right" o t1).
  unfold t1.
  rewrite (key_chains_running (keys ti) K_w K_s "forward" "backward"
             "waste_forward_backward" o t0).
  exact Ht0.
Qed.

(** A pass that returns ran on a [Drone]. *)
Lemma iteration_on_drone (ti : tick) (o : oracle) (self : t) :
  out_result (iteration ti o self) = Ok tt ->
  exists d, drone (out_state (iteration ti o self)) = ADrone d.
Proof.
  unfold iteration. intros Hok.
  apply bind_Ok_split in Hok. destruct Hok as (self' & _ & Hok & _ & ->).
  apply bind_Ok_split in Hok. destruct Hok as ([] & _ & Hok & _ & ->).
  apply bind_Ok_split in Hok. destruct Hok as ([] & _ & Hok & _ & ->).
  apply bind_Ok_split in Hok. destruct Hok as ([] & _ & Hok & _ & ->).
  apply bind_Ok_split in Hok. destruct Hok as ([] & _ & Hok & _ & ->).
  apply drone_call_update_rc in Hok.
  destruct Hok as (d & lr & fb & ud & yaw & Hd & _ & _ & _ & _ & Hrun).
  exists d. rewrite Hrun. exact Hd.
Qed.

(** *** Teardown *)

Lemma release_run (o : oracle) (d : Drone.t) :
  o streamoff = false -> o send_rc_control = false -> o tello_end = false ->
  Drone.release o d
  = Outcome [EvCall streamoff; EvSendRc 0 0 0 0; EvCall tello_end]
      (out_state (Drone.stop o d)) (Ok tt).
Proof.
  intros Hoff Hsend Hend. unfold Drone.release.
  rewrite (bind_step (external streamoff (EvCall streamoff)) _ o d d
             [EvCall streamoff] tt)
    by (unfold external; rewrite Hoff; reflexivity).
  rewrite (bind_step Drone.stop _ o d (out_state (Drone.stop o d)) [] tt)
    by reflexivity.
  rewrite (bind_step Drone.update_rc _ o (out_state (Drone.stop o d))
             (out_state (Drone.stop o d)) [EvSendRc 0 0 0 0] tt).
  2: { rewrite (ControllerFacts.update_rc_run 0 0 0 0), Hsend;
         [reflexivity | | | |];
         apply (ControllerFacts.stop_axis _ o d);
         unfold Controller.axes; cbn [In]; tauto. }
  cbn zeta. unfold external. rewrite Hend. reflexivity.
Qed.

Lemma on_exit_run (o : oracle) (self : t) (d : Drone.t) :
  drone self = ADrone d ->
  o streamoff = false -> o send_rc_control = false -> o tello_end = false ->
  on_exit o self
  = Outcome teardown_log
      (set_drone (ADrone (out_state (Drone.stop o d))) self) (Ok tt).
Proof.
  intros Hd Hoff Hsend Hend. unfold on_exit, drone_call.
  rewrite (bind_step
             (self <- get ;;
              match drone self with
              | ANotebookCamera c => _
              | ADrone d => _
              end) _ o self
             (set_drone (ADrone (out_state (Drone.stop o d))) self)
             [EvInvoke "release"; EvCall streamoff; EvSendRc 0 0 0 0;
              EvCall tello_end] tt).
  - reflexivity.
  - rewrite (bind_step get _ o self self [] self) by reflexivity.
    cbn zeta. rewrite Hd. ControllerFacts.eval_lookup.
    rewrite (bind_step (emit (EvInvoke "release")) _ o self self
               [EvInvoke "release"] tt) by reflexivity.
    cbn zeta. unfold zoom.
    rewrite (release_run o d Hoff Hsend Hend). reflexivity.
Qed.

Lemma run_unfold (ticks : list tick) :
  run ticks
  = (self <- get ;;
     if _running self then
       match ticks with
       | [] => ret InputExhausted
       | ti :: rest => with_oracle (fails ti) (iteration ti) ;; run rest
       end
     else on_exit ;; ret Terminated).
Proof. destruct ticks; reflexivity. Qed.

(** C6 fails as stated: when [streamoff] raises during teardown, the
    exception leaves [run]; [stop] and the final [update_rc] are not
    reached, so the trace ends with the call of [streamoff] and holds no
    command after the one of the last tick, and neither [end] nor
    [pg.quit] is called. *)
Lemma streamoff_failure_escapes :
  let r := run [quit_tick] streamoff_fails started in
  quits quit_tick = true
  /\ out_result r = Raise (ExternalError streamoff)
  /\ out_log r
     = (out_log (iteration quit_tick no_failure started)
        ++ [EvInvoke "release"; EvCall streamoff])%list
  /\ sends (out_log r) = sends (out_log (iteration quit_tick no_failure started))
  /\ ~ In (EvCall tello_end) (out_log r)
  /\ ~ In EvPgQuit (out_log r).
Proof.
  cbn zeta. split; [reflexivity|].
  split; [vm_compute; reflexivity|].
  split; [vm_compute; reflexivity|].
  split; [vm_compute; reflexivity|].
  split; vm_compute; intros H;
    repeat (destruct H as [H|H]; [discriminate H|]); exact H.
Qed.

End LoopFacts.

(** ** More on the velocity controller *)

Module ControllerMore.
Import Drone Controller Flight ControllerFacts.

Lemma read_Some (d : t) (v : velocities) :
  read d = Some v <->
  d !! "left_right_velocity" = Some (left_right v)
  /\ d !! "forward_backward_velocity" = Some (forward_backward v)
  /\ d !! "up_down_velocity" = Some (up_down v)
  /\ d !! "yaw_velocity" = Some (yaw v).
Proof.
  unfold read. destruct v as [a b c e]. cbn [left_right forward_backward up_down yaw].
  destruct (d !! "left_right_velocity"), (d !! "forward_backward_velocity"),
    (d !! "up_down_velocity"), (d !! "yaw_velocity");
    split; try discriminate; try (intros (? & ? & ? & ?); discriminate).
  - intros [= -> -> -> ->]. auto.
  - intros ([= ->] & [= ->] & [= ->] & [= ->]). reflexivity.
Qed.

Lemma read_stop (o : oracle) (d : t) :
  read (out_state (stop o d)) = Some (Velocities 0 0 0 0).
Proof.
  apply read_Some. cbn [left_right forward_backward up_down yaw].
  repeat split; apply (stop_axis _ o d); unfold axes; cbn [In]; tauto.
Qed.

(** What each per-axis method does, by name: it replaces the value of its
    attribute by the result of its arithmetic, records nothing and returns;
    without the attribute it raises and changes nothing. *)
Lemma call_step (name attr : string) (f : Z -> Z) (o : oracle) (d : t) :
  In (name, (attr, f)) axis_steps ->
  call name o d
  = match d !! attr with
    | Some v => Outcome [] (<[attr := f v]> d) (Ok tt)
    | None => Outcome [] d (Raise (AttributeError attr))
    end.
Proof.
  intros Hin. unfold axis_steps in Hin.
  repeat (destruct Hin as [Hin|Hin];
          [injection Hin as <- <- <-; eval_lookup;
           destruct (d !! _) as [v|] eqn:E;
           lazymatch goal with
           | |- context [right] => first [apply plus_run | apply plus_missing]
           | |- context [forward] => first [apply plus_run | apply plus_missing]
           | |- context [up] => first [apply plus_run | apply plus_missing]
           | |- context [ccw] => first [apply plus_run | apply plus_missing]
           | |- context [left] => first [apply minus_run | apply minus_missing]
           | |- context [backward] =>
               first [apply minus_run | apply minus_missing]
           | |- context [down] => first [apply minus_run | apply minus_missing]
           | |- context [cw] => first [apply minus_run | apply minus_missing]
           | |- _ => first [apply waste_run | apply waste_missing]
           end; exact E|]).
  destruct Hin.
Qed.

Lemma resolution_one (o : oracle) (d : t) (m : Z * Z) :
  o get_monitors = false ->
  resolution [m] o d = Outcome [EvCall get_monitors] d (Ok m).
Proof.
  intros Hg. unfold resolution.
  rewrite (bind_step (external get_monitors (EvCall get_monitors)) _ o d d
             [EvCall get_monitors] tt)
    by (unfold external; rewrite Hg; reflexivity).
  reflexivity.
Qed.

Lemma resolution_not_one (o : oracle) (d : t) (monitors : list (Z * Z)) :
  o get_monitors = false ->
  (forall m, monitors <> [m]) ->
  resolution monitors o d = Outcome [EvCall get_monitors] d (Raise ValueError).
Proof.
  intros Hg Hne. unfold resolution.
  rewrite (bind_step (external get_monitors (EvCall get_monitors)) _ o d d
             [EvCall get_monitors] tt)
    by (unfold external; rewrite Hg; reflexivity).
  destruct monitors as [|m [|m' rest]]; [reflexivity| |reflexivity].
  exfalso. apply (Hne m). reflexivity.
Qed.

Lemma Device__init__one (o : oracle) (d : t) (w h : Z) :
  o get_monitors = false ->
  Device__init__ [(w, h)] o d
  = Outcome [EvCall get_monitors] (<["height" := h]> (<["width" := w]> d))
      (Ok tt).
Proof.
  intros Hg. unfold Device__init__.
  rewrite (bind_step _ _ o d d _ _ (resolution_one o d (w, h) Hg)).
  reflexivity.
Qed.

(** X1: [Drone.__init__] sends a command only after all of its setup has
    returned.  The monitor query must return and find exactly one monitor
    (any other number raises [ValueError]), whose size is stored in
    [width] and [height]; then [tello.Tello()], [connect] and [streamon]
    must return.  Only then are the four velocities zeroed and
    (0, 0, 0, 0) sent, as the first and only command.  When one of the
    earlier steps raises, nothing after it is called, no velocity is set
    and no command is sent. *)
Theorem init_sends_after_setup (monitors : list (Z * Z)) (o : oracle)
    (d : t) :
  (o get_monitors = true ->
   __init__ monitors o d
   = Outcome [EvCall get_monitors] d (Raise (ExternalError get_monitors)))
  /\ (o get_monitors = false -> (forall m, monitors <> [m]) ->
      __init__ monitors o d
      = Outcome [EvCall get_monitors] d (Raise ValueError))
  /\ (forall w h, monitors = [(w, h)] -> o get_monitors = false ->
      let sized := <["height" := h]> (<["width" := w]> d) in
      (o tello_Tello = true ->
       __init__ monitors o d
       = Outcome [EvCall get_monitors; EvCall tello_Tello] sized
           (Raise (ExternalError tello_Tello)))
      /\ (o tello_Tello = false -> o tello_connect = true ->
          __init__ monitors o d
          = Outcome [EvCall get_monitors; EvCall tello_Tello;
                     EvCall tello_connect] sized
              (Raise (ExternalError tello_connect)))
      /\ (o tello_Tello = false -> o tello_connect = false ->
          o streamon = true ->
          __init__ monitors o d
          = Outcome [EvCall get_monitors; EvCall tello_Tello;
                     EvCall tello_connect; EvCall streamon] sized
              (Raise (ExternalError streamon)))
      /\ (o tello_Tello = false -> o tello_connect = false ->
          o streamon = false ->
          out_log (__init__ monitors o d)
          = [EvCall get_monitors; EvCall tello_Tello; EvCall tello_connect;
             EvCall streamon; EvSendRc 0 0 0 0]
          /\ read (out_state (__init__ monitors o d))
             = Some (Velocities 0 0 0 0)
          /\ out_state (__init__ monitors o d) !! "width" = Some w
          /\ out_state (__init__ monitors o d) !! "height" = Some h
          /\ out_result (__init__ monitors o d)
             = if o send_rc_control
               then Raise (ExternalError send_rc_control) else Ok tt)).
Proof.
  unfold __init__. split; [|split].
  - intros Hg. apply bind_stop. unfold Device__init__. apply bind_stop.
    unfold resolution. apply bind_stop.
    unfold external. rewrite Hg. reflexivity.
  - intros Hg Hne. apply bind_stop. unfold Device__init__. apply bind_stop.
    apply resolution_not_one; assumption.
  - intros w h Hm Hg. subst monitors. cbn zeta.
    set (sized := <["height" := h]> (<["width" := w]> d)).
    rewrite (bind_step _ _ o d _ _ _ (Device__init__one o d w h Hg)).
    fold sized. cbn zeta.
    destruct (o tello_Tello) eqn:Ht.
    { split; [|split; [discriminate | split; discriminate]]. intros _.
      rewrite (bind_stop (external tello_Tello _) _ o sized sized
                 [EvCall tello_Tello] (ExternalError tello_Tello))
        by (unfold external; rewrite Ht; reflexivity).
      reflexivity. }
    split; [discriminate|].
    rewrite (bind_step (external tello_Tello _) _ o sized sized
               [EvCall tello_Tello] tt)
      by (unfold external; rewrite Ht; reflexivity).
    cbn zeta.
    destruct (o tello_connect) eqn:Hc.
    { split; [|split; discriminate]. intros _ _.
      rewrite (bind_stop (external tello_connect _) _ o sized sized
                 [EvCall tello_connect] (ExternalError tello_connect))
        by (unfold external; rewrite Hc; reflexivity).
      reflexivity. }
    split; [discriminate|].
    rewrite (bind_step (external tello_connect _) _ o sized sized
               [EvCall tello_connect] tt)
      by (unfold external; rewrite Hc; reflexivity).
    cbn zeta.
    destruct (o streamon) eqn:Hs.
    { split; [|discriminate]. intros _ _ _.
      rewrite (bind_stop (external streamon _) _ o sized sized
                 [EvCall streamon] (ExternalError streamon))
        by (unfold external; rewrite Hs; reflexivity).
      reflexivity. }
    split; [discriminate|]. intros _ _ _.
    rewrite (bind_step (external streamon _) _ o sized sized
               [EvCall streamon] tt)
      by (unfold external; rewrite Hs; reflexivity).
    cbn zeta.
    rewrite (bind_step stop _ o sized (out_state (stop o sized)) [] tt)
      by reflexivity.
    cbn zeta.
    rewrite (update_rc_run 0 0 0 0)
      by (apply (stop_axis _ o sized); unfold axes; cbn [In]; tauto).
    cbn [out_log out_state out_result app].
    split; [reflexivity|]. split; [apply read_stop|].
    rewrite stop_run. cbn [out_state]. unfold sized.
    split; [|split; [|reflexivity]]; attr_lookup; reflexivity.
Qed.

Lemma init_sends_after_setup_witness :
  __init__ [(1920, 1080); (1280, 1024)] no_failure ∅
  = Outcome [EvCall get_monitors] ∅ (Raise ValueError).
Proof.
  apply (proj1 (proj2 (init_sends_after_setup [(1920, 1080); (1280, 1024)]
                         no_failure ∅))).
  - reflexivity.
  - intros m. discriminate.
Defined.

(** X2: a per-axis method called on a [Drone] whose attribute is not set
    (no [stop] has run yet) raises [AttributeError] for that attribute,
    records nothing and leaves the dictionary as it was. *)
Theorem axis_method_without_attribute (name attr : string) (f : Z -> Z)
    (o : oracle) (d : t) :
  In (name, (attr, f)) axis_steps ->
  d !! attr = None ->
  call name o d = Outcome [] d (Raise (AttributeError attr)).
Proof.
  intros Hin Hnone. rewrite (call_step name attr f o d Hin), Hnone.
  reflexivity.
Qed.

Lemma axis_method_without_attribute_witness :
  call "cw" no_failure ∅
  = Outcome [] ∅ (Raise (AttributeError "yaw_velocity")).
Proof.
  apply (axis_method_without_attribute "cw" "yaw_velocity"
           (minus_step (-100))).
  - unfold axis_steps. cbn [In]. do 10 right. left. reflexivity.
  - reflexivity.
Defined.

Lemma iter_minus_step (n : nat) :
  Nat.iter n (minus_step (-100)) 0 = Z.max (-3 * Z.of_nat n) (-100).
Proof.
  induction n as [|n IH].
  - reflexivity.
  - rewrite Nat.iter_succ, IH. unfold minus_step. lia.
Qed.

(** X3: the two gains and the decay are mirror images.  On opposite
    values, [_gain_velocity_minus] with minimum -100 leaves the opposite of
    what [_gain_velocity_plus] with maximum 100 leaves (and the other way
    round), and [_waste_velocity] leaves opposite values. *)
Theorem gain_and_decay_mirror (name : string) (o : oracle) (d d' : t)
    (v : Z) :
  axis d name = Some v ->
  axis d' name = Some (- v) ->
  let after (m : M t unit) (s : t) := axis (out_state (m o s)) name in
  after (_gain_velocity_minus name (-100)) d'
  = option_map Z.opp (after (_gain_velocity_plus name 100) d)
  /\ after (_gain_velocity_plus name 100) d'
     = option_map Z.opp (after (_gain_velocity_minus name (-100)) d)
  /\ after (_waste_velocity name) d'
     = option_map Z.opp (after (_waste_velocity name) d).
Proof.
  unfold axis. intros Hv Hv'. cbn zeta.
  rewrite (plus_run name 100 v o d Hv), (plus_run name 100 (- v) o d' Hv').
  rewrite (minus_run name (-100) v o d Hv),
    (minus_run name (-100) (- v) o d' Hv').
  rewrite (waste_run name v o d Hv), (waste_run name (- v) o d' Hv').
  cbn [out_state]. rewrite !lookup_insert_eq. cbn [option_map].
  unfold plus_step, minus_step, waste_step.
  repeat split; f_equal; try lia.
  destruct (0 <? v) eqn:E; destruct (0 <? - v) eqn:E';
    try apply Z.ltb_lt in E; try apply Z.ltb_ge in E;
    try apply Z.ltb_lt in E'; try apply Z.ltb_ge in E'; lia.
Qed.

Lemma gain_and_decay_mirror_witness :
  axis (out_state (_gain_velocity_minus "yaw_velocity" (-100) no_failure
                     (<["yaw_velocity" := -99]> initial))) "yaw_velocity"
  = option_map Z.opp
      (axis (out_state (_gain_velocity_plus "yaw_velocity" 100 no_failure
                          (<["yaw_velocity" := 99]> initial)))
         "yaw_velocity").
Proof.
  refine (proj1 (gain_and_decay_mirror "yaw_velocity" no_failure
                   (<["yaw_velocity" := 99]> initial)
                   (<["yaw_velocity" := -99]> initial) 99 _ _));
    reflexivity.
Defined.

(** X4: starting from value 0, the value after [n] calls of
    [_gain_velocity_minus] with minimum -100 is max(-3n, -100): it is -99
    after 33 calls, -100 at the 34th, and stays -100. *)
Theorem gain_negative_calls (name : string) (o : oracle) (d : t) :
  axis d name = Some 0 ->
  let value n :=
    axis (out_state (times n (_gain_velocity_minus name (-100)) o d)) name in
  (forall n, value n = Some (Z.max (-3 * Z.of_nat n) (-100)))
  /\ value 33%nat = Some (-99)
  /\ (forall n, (34 <= n)%nat -> value n = Some (-100)).
Proof.
  intros H0 value.
  assert (Hn : forall n, value n = Some (Z.max (-3 * Z.of_nat n) (-100))).
  { intros n. unfold value.
    destruct (times_axis name (minus_step (-100))
                (_gain_velocity_minus name (-100))
                (minus_run name (-100)) n o d 0 H0) as (_ & _ & Hs).
    rewrite Hs, iter_minus_step. reflexivity. }
  split; [exact Hn|]. split; [apply (Hn 33%nat)|].
  intros n Hle. rewrite Hn. f_equal. lia.
Qed.

Lemma gain_negative_calls_witness :
  axis (out_state (times 33 (_gain_velocity_minus "up_down_velocity" (-100))
                     no_failure initial)) "up_down_velocity"
  = Some (-99).
Proof.
  refine (proj1 (proj2 (gain_negative_calls "up_down_velocity" no_failure
                          initial _))).
  reflexivity.
Defined.

Lemma update_rc_missing (o : oracle) (d : t) :
  read d = None ->
  out_log (update_rc o d) = []
  /\ exists name, In name axes
                  /\ out_result (update_rc o d) = Raise (AttributeError name).
Proof.
  unfold read, update_rc. intros Hnone.
  repeat lazymatch goal with
    | |- context [bind (getattr ?name) _ o d] =>
        destruct (d !! name) as [?v|] eqn:?E;
        [ erewrite bind_step by (apply getattr_Some; eassumption);
          cbn zeta; cbn [out_log out_result app]
        | erewrite bind_stop by (apply getattr_None; eassumption);
          split; [reflexivity|]; exists name;
          split; [unfold axes; cbn [In]; tauto | reflexivity] ]
    end.
  discriminate Hnone.
Qed.

(** X5: [update_rc] only reads.  It never changes an attribute; with the
    four velocities set it makes exactly one [send_rc_control] call with
    them, in the order left-right, forward-backward, up-down, yaw; with one
    of them missing it raises [AttributeError] and sends nothing. *)
Theorem update_rc_reads_only (o : oracle) (d : t) :
  out_state (update_rc o d) = d
  /\ match read d with
     | Some v =>
         out_log (update_rc o d) = [command v]
         /\ out_result (update_rc o d)
            = if o send_rc_control
              then Raise (ExternalError send_rc_control) else Ok tt
     | None =>
         out_log (update_rc o d) = []
         /\ exists name, In name axes
              /\ out_result (update_rc o d) = Raise (AttributeError name)
     end.
Proof.
  split.
  - unfold update_rc.
    repeat lazymatch goal with
      | |- context [bind (getattr ?name) _ o d] =>
          destruct (d !! name) as [?v|] eqn:?E;
          [ erewrite bind_step by (apply getattr_Some; eassumption);
            cbn zeta; cbn [out_state]
          | erewrite bind_stop by (apply getattr_None; eassumption);
            reflexivity ]
      end.
    reflexivity.
  - destruct (read d) as [v|] eqn:E.
    + apply read_Some in E. destruct E as (Hlr & Hfb & Hud & Hy).
      rewrite (update_rc_run _ _ _ _ o d Hlr Hfb Hud Hy).
      split; reflexivity.
    + apply update_rc_missing, E.
Qed.

(** Whatever happens after [streamoff] has returned, [release] leaves the
    velocities at zero and has sent one command, the zero command. *)
Lemma release_after_streamoff (o : oracle) (d : t) :
  o streamoff = false ->
  read (out_state (release o d)) = Some (Velocities 0 0 0 0)
  /\ sends (out_log (release o d)) = [EvSendRc 0 0 0 0].
Proof.
  intros Hoff. unfold release.
  rewrite (bind_step (external streamoff (EvCall streamoff)) _ o d d
             [EvCall streamoff] tt)
    by (unfold external; rewrite Hoff; reflexivity).
  cbn zeta.
  rewrite (bind_step stop _ o d (out_state (stop o d)) [] tt) by reflexivity.
  cbn zeta.
  pose proof (read_stop o d) as Hread.
  assert (Hrc : update_rc o (out_state (stop o d))
                = Outcome [EvSendRc 0 0 0 0] (out_state (stop o d))
                    (if o send_rc_control
                     then Raise (ExternalError send_rc_control) else Ok tt)).
  { apply (update_rc_run 0 0 0 0);
      apply (stop_axis _ o d); unfold axes; cbn [In]; tauto. }
  destruct (o send_rc_control) eqn:Hsend.
  - rewrite (bind_stop update_rc _ o _ _ _ _ Hrc).
    cbn [out_state out_log app]. split; [exact Hread | reflexivity].
  - rewrite (bind_step update_rc _ o _ _ _ tt Hrc).
    cbn zeta. cbn [out_state out_log app external].
    split; [exact Hread | reflexivity].
Qed.

(** X6: [release] stops the stream first.  When [streamoff] raises,
    nothing else happens: the velocities keep their values and no command
    is sent.  When it returns, the velocities are zeroed and exactly one
    command, (0, 0, 0, 0), is sent, even if [send_rc_control] or [end] then
    raises. *)
Theorem release_stops_stream_first (o : oracle) (d : t) :
  (o streamoff = true ->
   release o d = Outcome [EvCall streamoff] d (Raise (ExternalError streamoff)))
  /\ (o streamoff = false ->
      read (out_state (release o d)) = Some (Velocities 0 0 0 0)
      /\ sends (out_log (release o d)) = [EvSendRc 0 0 0 0]).
Proof.
  split.
  - intros Hoff. unfold release. apply bind_stop.
    unfold external. rewrite Hoff. reflexivity.
  - apply release_after_streamoff.
Qed.

Lemma release_stops_stream_first_witness :
  read (out_state (release (only_fails tello_end)
                     (<["yaw_velocity" := 42]> initial)))
  = Some (Velocities 0 0 0 0)
  /\ sends (out_log (release (only_fails tello_end)
                       (<["yaw_velocity" := 42]> initial)))
     = [EvSendRc 0 0 0 0].
Proof.
  apply (proj2 (release_stops_stream_first (only_fails tello_end)
                  (<["yaw_velocity" := 42]> initial))).
  reflexivity.
Defined.

End ControllerMore.

(** ** More on the application *)

Module AppMore.
Import App Loop Flight ControllerFacts ControllerMore.

(** *** Calls on the device *)

Lemma drone_call_run (name : string) (m : M Drone.t unit) (o : oracle)
    (self : t) (d : Drone.t) :
  drone self = ADrone d ->
  lookup_method Drone.methods name = Some m ->
  drone_call name o self
  = Outcome (EvInvoke name :: out_log (m o d))
      (set_drone (ADrone (out_state (m o d))) self)
      (out_result (m o d)).
Proof.
  intros Hd Hm. unfold drone_call.
  rewrite (bind_step get _ o self self [] self) by reflexivity.
  cbn zeta. rewrite Hd, Hm.
  rewrite (bind_step (emit (EvInvoke name)) _ o self self
             [EvInvoke name] tt) by reflexivity.
  reflexivity.
Qed.

Lemma camera_call_run (name : string) (o : oracle) (self : t)
    (c : NotebookCamera.t) :
  drone self = ANotebookCamera c ->
  drone_call name o self
  = match lookup_method NotebookCamera.methods name with
    | Some m =>
        Outcome (EvInvoke name :: out_log (m o c))
          (set_drone (ANotebookCamera (out_state (m o c))) self)
          (out_result (m o c))
    | None => Outcome [] self (Raise (AttributeError name))
    end.
Proof.
  intros Hc. unfold drone_call.
  rewrite (bind_step get _ o self self [] self) by reflexivity.
  cbn zeta. rewrite Hc.
  destruct (lookup_method NotebookCamera.methods name) as [m|];
    [|reflexivity].
  rewrite (bind_step (emit (EvInvoke name)) _ o self self
             [EvInvoke name] tt) by reflexivity.
  reflexivity.
Qed.

Lemma drone_set_drone (dev : device) (self : t) :
  drone (set_drone dev self) = dev.
Proof. reflexivity. Qed.

(** The three one-shot actions leave the device object as it was. *)
Lemma action_same_device (name : string) (o : oracle) (self : t) :
  name = "land" \/ name = "takeoff" \/ name = "emergency" ->
  same_device self (out_state (drone_call name o self)).
Proof.
  intros Hname. unfold same_device. destruct (drone self) as [c|d] eqn:Hd.
  - rewrite (camera_call_run name o self c Hd).
    destruct Hname as [-> | [-> | ->]]; eval_lookup; cbn [out_state];
      rewrite drone_set_drone; destruct c; reflexivity.
  - destruct Hname as [-> | [-> | ->]].
    + rewrite (drone_call_run "land" Drone.land o self d Hd) by reflexivity.
      reflexivity.
    + rewrite (drone_call_run "takeoff" Drone.takeoff o self d Hd)
        by reflexivity.
      reflexivity.
    + rewrite (drone_call_run "emergency" Drone.emergency o self d Hd)
        by reflexivity.
      reflexivity.
Qed.

Lemma handle_event_same_device (event : pg_event) (o : oracle) (self : t) :
  same_device self (out_state (handle_event event o self)).
Proof.
  destruct event as [|k|]; [reflexivity| |reflexivity].
  destruct k; try reflexivity; unfold handle_event;
    rewrite (bind_step (ret tt) _ o self self [] tt) by reflexivity;
    cbn zeta; cbn [out_state]; apply action_same_device; tauto.
Qed.

Lemma for_each_same_device (evs : list pg_event) (o : oracle) :
  forall self : t,
    same_device self (out_state (for_each evs handle_event o self)).
Proof.
  induction evs as [|e evs IH]; intros self; [reflexivity|].
  cbn [for_each]. unfold bind.
  pose proof (handle_event_same_device e o self) as He.
  destruct (out_result (handle_event e o self)); cbn [out_state].
  - unfold same_device in *. rewrite IH. exact He.
  - exact He.
Qed.

(** X7: the discrete events (quit, Escape, land, takeoff, emergency) never
    touch the device object: whatever the event queue holds and whichever
    calls raise, the velocities after the [for] loop of [on_event] are the
    ones before it.  In particular an emergency stop does not zero them. *)
Theorem events_keep_velocities (evs : list pg_event) (o : oracle) (self : t) :
  drone (out_state (for_each evs handle_event o self)) = drone self
  /\ velocities_of (out_state (for_each evs handle_event o self))
     = velocities_of self.
Proof.
  pose proof (for_each_same_device evs o self) as H.
  unfold same_device in H. split; [exact H|].
  unfold velocities_of. rewrite H. reflexivity.
Qed.

(** *** The telemetry panel on each device *)

Lemma velocities_of_drone (self : t) (v : velocities) :
  velocities_of self = Some v ->
  exists d, drone self = ADrone d /\ read d = Some v.
Proof.
  unfold velocities_of. destruct (drone self) as [c|d]; [discriminate|].
  intros H. exists d. auto.
Qed.

Lemma drone_getattr_run (name : string) (x : Z) (o : oracle) (self : t)
    (d : Drone.t) :
  drone self = ADrone d -> d !! name = Some x ->
  drone_getattr name o self = Outcome [] self (Ok x).
Proof.
  intros Hd Hx. unfold drone_getattr.
  rewrite (bind_step get _ o self self [] self) by reflexivity.
  cbn zeta. rewrite Hd. unfold zoom.
  rewrite (getattr_Some name x o d Hx). reflexivity.
Qed.

Lemma Info__update_run (o : oracle) (self : t) (v : velocities) :
  velocities_of self = Some v ->
  Info__update o self
  = Outcome
      ([EvAreaFill; EvCall telemetry]
       ++ (if o telemetry then []
           else [EvInfo (forward_backward v) (left_right v) (up_down v)
                   (yaw v)]))
      self
      (if o telemetry then Raise (ExternalError telemetry) else Ok tt).
Proof.
  intros Hv. apply velocities_of_drone in Hv. destruct Hv as (d & Hd & Hr).
  apply read_Some in Hr. destruct Hr as (Hlr & Hfb & Hud & Hy).
  unfold Info__update.
  rewrite (bind_step (emit EvAreaFill) _ o self self [EvAreaFill] tt)
    by reflexivity.
  cbn zeta.
  rewrite (bind_step _ _ o self self [] _
             (drone_getattr_run _ _ o self d Hd Hfb)).
  cbn zeta.
  rewrite (bind_step _ _ o self self [] _
             (drone_getattr_run _ _ o self d Hd Hlr)).
  cbn zeta.
  rewrite (bind_step _ _ o self self [] _
             (drone_getattr_run _ _ o self d Hd Hud)).
  cbn zeta.
  rewrite (bind_step _ _ o self self [] _
             (drone_getattr_run _ _ o self d Hd Hy)).
  cbn zeta.
  destruct (o telemetry) eqn:Ht.
  - rewrite (bind_stop (external telemetry (EvCall telemetry)) _ o self self
               [EvCall telemetry] (ExternalError telemetry))
      by (unfold external; rewrite Ht; reflexivity).
    reflexivity.
  - rewrite (bind_step (external telemetry (EvCall telemetry)) _ o self self
               [EvCall telemetry] tt)
      by (unfold external; rewrite Ht; reflexivity).
    reflexivity.
Qed.

Lemma Info_update_due (now : Z) (o : oracle) (self : t) :
  now <> last_upd_time self ->
  Info_update now o self
  = let r := Info__update o (set_last_upd_time now self) in
    Outcome (out_log r) (out_state r) (out_result r).
Proof.
  intros Hne. unfold Info_update.
  rewrite (bind_step get _ o self self [] self) by reflexivity.
  cbn zeta. apply Z.eqb_neq in Hne. rewrite Hne. cbn [negb].
  rewrite (bind_step (put (set_last_upd_time now self)) _ o self
             (set_last_upd_time now self) [] tt) by reflexivity.
  reflexivity.
Qed.

(** X8: what a refresh of the telemetry panel shows.  When the second has
    changed, [Info.update] on a [Drone] clears the panel, reads the
    telemetry and blits the panel with the velocities the device has at
    that moment, in the order forward-backward, left-right, up-down, yaw;
    if the telemetry read raises, the panel is not blitted, and the stored
    second has already been advanced.  On a [NotebookCamera] the refresh
    raises [AttributeError] for [forward_backward_velocity] right after
    clearing the panel. *)
Theorem info_refresh_shows_velocities (now : Z) (o : oracle) (self : t) :
  now <> last_upd_time self ->
  (forall v, velocities_of self = Some v ->
     Info_update now o self
     = Outcome
         ([EvAreaFill; EvCall telemetry]
          ++ (if o telemetry then []
              else [EvInfo (forward_backward v) (left_right v) (up_down v)
                      (yaw v)]))
         (set_last_upd_time now self)
         (if o telemetry then Raise (ExternalError telemetry) else Ok tt))
  /\ (is_camera self = true ->
      Info_update now o self
      = Outcome [EvAreaFill] (set_last_upd_time now self)
          (Raise (AttributeError "forward_backward_velocity"))).
Proof.
  intros Hne. rewrite (Info_update_due now o self Hne). cbn zeta. split.
  - intros v Hv.
    rewrite (Info__update_run o (set_last_upd_time now self) v) by exact Hv.
    reflexivity.
  - unfold is_camera. destruct (drone self) as [c|d] eqn:Hd; [|discriminate].
    intros _. unfold Info__update.
    rewrite (bind_step (emit EvAreaFill) _ o _ (set_last_upd_time now self)
               [EvAreaFill] tt) by reflexivity.
    cbn zeta.
    rewrite (bind_stop (drone_getattr "forward_backward_velocity") _ o
               (set_last_upd_time now self) (set_last_upd_time now self) []
               (AttributeError "forward_backward_velocity")).
    + reflexivity.
    + unfold drone_getattr.
      rewrite (bind_step get _ o _ (set_last_upd_time now self) []
                 (set_last_upd_time now self)) by reflexivity.
      cbn zeta. cbn [set_last_upd_time drone]. rewrite Hd. reflexivity.
Qed.

Lemma info_refresh_shows_velocities_witness :
  Info_update 7 no_failure on_notebook
  = Outcome [EvAreaFill] (set_last_upd_time 7 on_notebook)
      (Raise (AttributeError "forward_backward_velocity")).
Proof.
  refine (proj2 (info_refresh_shows_velocities 7 no_failure on_notebook _) _).
  - cbn. lia.
  - reflexivity.
Defined.

(** *** The effect of the key chains *)

Lemma lookup_axis_method (name attr : string) (f : Z -> Z) :
  In (name, (attr, f)) axis_steps ->
  lookup_method Drone.methods name = Some (Controller.call name).
Proof.
  intros Hin. unfold axis_steps in Hin.
  repeat (destruct Hin as [Hin|Hin];
          [injection Hin as <- <- <-; eval_lookup; reflexivity|]).
  destruct Hin.
Qed.

Lemma drone_call_axis (name attr : string) (f : Z -> Z) (x : Z) (o : oracle)
    (self : t) (d : Drone.t) :
  In (name, (attr, f)) axis_steps ->
  drone self = ADrone d ->
  d !! attr = Some x ->
  drone_call name o self
  = Outcome [EvInvoke name] (set_drone (ADrone (<[attr := f x]> d)) self)
      (Ok tt).
Proof.
  intros Hin Hd Hx.
  rewrite (drone_call_run name (Controller.call name) o self d Hd
             (lookup_axis_method name attr f Hin)).
  rewrite (call_step name attr f o d Hin), Hx. reflexivity.
Qed.

(** One [if]/[elif]/[else] chain, on a [Drone] whose attribute is set. *)
Lemma chain_run (held : key -> bool) (k1 k2 : key) (n1 n2 n3 attr : string)
    (f1 f2 : Z -> Z) (x : Z) (o : oracle) (self : t) (d : Drone.t) :
  In (n1, (attr, f1)) axis_steps ->
  In (n2, (attr, f2)) axis_steps ->
  In (n3, (attr, Controller.waste_step)) axis_steps ->
  drone self = ADrone d ->
  d !! attr = Some x ->
  exists log,
    (if held k1 then drone_call n1
     else if held k2 then drone_call n2
     else drone_call n3) o self
    = Outcome log
        (set_drone (ADrone (<[attr := chain held k1 f1 k2 f2 x]> d)) self)
        (Ok tt).
Proof.
  intros H1 H2 H3 Hd Hx. unfold chain.
  destruct (held k1); [|destruct (held k2)]; eexists;
    eapply drone_call_axis; eassumption.
Qed.

Lemma set_drone_twice (dev dev' : device) (self : t) :
  set_drone dev (set_drone dev' self) = set_drone dev self.
Proof. reflexivity. Qed.

Ltac in_axis_steps :=
  unfold axis_steps; cbn [In]; repeat first [left; reflexivity | right].

(** [on_event] on a [Drone] whose velocities are set, once the events have
    been dispatched without an exception. *)
Lemma on_event_run (evs : list pg_event) (held : key -> bool) (o : oracle)
    (self : t) (v : velocities) :
  velocities_of self = Some v ->
  out_result (for_each evs handle_event o self) = Ok tt ->
  exists d',
    out_result (on_event evs held o self) = Ok tt
    /\ out_state (on_event evs held o self)
       = set_drone (ADrone d') (out_state (for_each evs handle_event o self))
    /\ read d' = Some (key_step held v).
Proof.
  intros Hv Hev.
  pose proof (for_each_same_device evs o self) as Hdev.
  unfold same_device in Hdev.
  apply velocities_of_drone in Hv. destruct Hv as (d & Hd & Hr).
  apply read_Some in Hr. destruct Hr as (Hlr & Hfb & Hud & Hy).
  set (s0 := out_state (for_each evs handle_event o self)) in *.
  rewrite Hd in Hdev.
  destruct (chain_run held K_w K_s "forward" "backward"
              "waste_forward_backward" "forward_backward_velocity"
              (Controller.plus_step 100) (Controller.minus_step (-100))
              (forward_backward v) o s0 d) as (l1 & E1);
    [in_axis_steps | in_axis_steps | in_axis_steps | exact Hdev | exact Hfb |].
  set (d1 := <["forward_backward_velocity" := _]> d) in E1.
  set (s1 := set_drone (ADrone d1) s0) in E1.
  destruct (chain_run held K_a K_d "left" "right" "waste_left_right"
              "left_right_velocity"
              (Controller.minus_step (-100)) (Controller.plus_step 100)
              (left_right v) o s1 d1) as (l2 & E2);
    [in_axis_steps | in_axis_steps | in_axis_steps | reflexivity
    | unfold d1; rewrite lookup_insert_ne by discriminate; exact Hlr |].
  set (d2 := <["left_right_velocity" := _]> d1) in E2.
  set (s2 := set_drone (ADrone d2) s1) in E2.
  destruct (chain_run held K_SPACE K_c "up" "down" "waste_up_down"
              "up_down_velocity"
              (Controller.plus_step 100) (Controller.minus_step (-100))
              (up_down v) o s2 d2) as (l3 & E3);
    [in_axis_steps | in_axis_steps | in_axis_steps | reflexivity
    | unfold d2, d1; rewrite !lookup_insert_ne by discriminate; exact Hud |].
  set (d3 := <["up_down_velocity" := _]> d2) in E3.
  set (s3 := set_drone (ADrone d3) s2) in E3.
  destruct (chain_run held K_q K_e "cw" "ccw" "waste_yaw" "yaw_velocity"
              (Controller.minus_step (-100)) (Controller.plus_step 100)
              (yaw v) o s3 d3) as (l4 & E4);
    [in_axis_steps | in_axis_steps | in_axis_steps | reflexivity
    | unfold d3, d2, d1; rewrite !lookup_insert_ne by discriminate;
      exact Hy |].
  set (d4 := <["yaw_velocity" := _]> d3) in E4.
  exists d4. unfold on_event.
  rewrite (bind_Ok (for_each evs handle_event) _ o self tt Hev).
  fold s0.
  rewrite (bind_step _ _ o s0 _ _ _ E1). cbn zeta.
  rewrite (bind_step _ _ o s1 _ _ _ E2). cbn zeta.
  rewrite (bind_step _ _ o s2 _ _ _ E3). cbn zeta.
  rewrite E4. cbn [out_result out_state].
  split; [reflexivity|]. split; [reflexivity|].
  apply read_Some. unfold key_step, d4, d3, d2, d1.
  cbn [left_right forward_backward up_down yaw].
  repeat split; attr_lookup; reflexivity.
Qed.

(** X9: the effect of [on_event] on the velocities.  On a [Drone] whose
    four velocities are set, when the discrete events are dispatched
    without an exception, [on_event] returns and each velocity is replaced
    by the result of the arithmetic its chain selects: W/S, D/A, SPACE/C
    and E/Q gain in the positive/negative direction, the key tested first
    winning, and an axis with neither key held decays. *)
Theorem on_event_steps_velocities (evs : list pg_event) (held : key -> bool)
    (o : oracle) (self : t) (v : velocities) :
  velocities_of self = Some v ->
  out_result (for_each evs handle_event o self) = Ok tt ->
  out_result (on_event evs held o self) = Ok tt
  /\ velocities_of (out_state (on_event evs held o self))
     = Some (key_step held v).
Proof.
  intros Hv Hev.
  destruct (on_event_run evs held o self v Hv Hev) as (d' & Hok & Hst & Hr).
  split; [exact Hok|]. rewrite Hst. exact Hr.
Qed.

Lemma on_event_steps_velocities_witness :
  velocities_of (out_state (on_event [] w_d_held no_failure started))
  = Some (key_step w_d_held (Velocities 0 0 0 0)).
Proof.
  refine (proj2 (on_event_steps_velocities [] w_d_held no_failure started
                   (Velocities 0 0 0 0) _ _)); reflexivity.
Defined.

(** *** The stand-in camera *)

Lemma stays_camera_trans (s1 s2 s3 : t) :
  stays_camera s1 s2 -> stays_camera s2 s3 -> stays_camera s1 s3.
Proof. unfold stays_camera. auto. Qed.

Lemma same_device_stays_camera (s s' : t) :
  same_device s s' -> stays_camera s s'.
Proof. unfold same_device, stays_camera, is_camera. intros ->. auto. Qed.

Lemma drone_call_stays_camera (name : string) :
  preserves stays_camera (drone_call name).
Proof.
  intros o s. unfold stays_camera, is_camera.
  destruct (drone s) as [c|d] eqn:Hd; [|discriminate].
  intros _. rewrite (camera_call_run name o s c Hd).
  destruct (lookup_method NotebookCamera.methods name); cbn [out_state].
  - reflexivity.
  - rewrite Hd. reflexivity.
Qed.

Lemma on_info_stays_camera (now : Z) : preserves stays_camera (on_info now).
Proof.
  intros o s. apply same_device_stays_camera. unfold same_device, on_info.
  destruct (Z.eq_dec now (last_upd_time s)) as [Heq|Hne].
  - unfold Info_update.
    rewrite (bind_step get _ o s s [] s) by reflexivity.
    cbn zeta. apply Z.eqb_eq in Heq. rewrite Heq. reflexivity.
  - rewrite (Info_update_due now o s Hne). cbn zeta. cbn [out_state].
    rewrite <- (InfoFacts.Info__update_state o (set_last_upd_time now s)).
    reflexivity.
Qed.

Lemma on_event_stays_camera (evs : list pg_event) (held : key -> bool) :
  preserves stays_camera (on_event evs held).
Proof.
  unfold on_event.
  apply (preserves_bind stays_camera stays_camera_trans).
  { intros o s. apply same_device_stays_camera, for_each_same_device. }
  intros _.
  repeat (apply (preserves_bind stays_camera stays_camera_trans);
          [destruct (held _); [|destruct (held _)];
           apply drone_call_stays_camera | intros _]).
  destruct (held _); [|destruct (held _)]; apply drone_call_stays_camera.
Qed.

Lemma iteration_stays_camera (ti : tick) :
  preserves stays_camera (iteration ti).
Proof.
  unfold iteration.
  apply (preserves_bind stays_camera stays_camera_trans);
    [intros o s H; exact H | intros self].
  apply (preserves_bind stays_camera stays_camera_trans);
    [intros o s H; exact H | intros _].
  apply (preserves_bind stays_camera stays_camera_trans);
    [apply on_info_stays_camera | intros _].
  apply (preserves_bind stays_camera stays_camera_trans);
    [apply on_event_stays_camera | intros _].
  apply (preserves_bind stays_camera stays_camera_trans);
    [|intros _; apply drone_call_stays_camera].
  unfold on_render, draw_frame.
  apply (preserves_bind stays_camera stays_camera_trans);
    [apply drone_call_stays_camera | intros _; intros o s H; exact H].
Qed.

Lemma bind_raises {S A B} (m : M S A) (f : A -> M S B) (o : oracle) (s : S)
    (e : exn) :
  out_result (m o s) = Raise e ->
  bind m f o s = Outcome (out_log (m o s)) (out_state (m o s)) (Raise e).
Proof. intros H. unfold bind. rewrite H. reflexivity. Qed.

(** X10: with the stand-in camera as device no pass through the loop body
    returns.  [NotebookCamera] defines neither [update_rc] nor the
    [waste_*] methods, so every pass raises, and [run] ends with the
    exception of its first pass: nothing follows that pass in the trace,
    teardown included. *)
Theorem camera_loop_raises (ti : tick) (rest : list tick) (o : oracle)
    (self : t) :
  is_camera self = true ->
  (exists e, out_result (iteration ti o self) = Raise e)
  /\ (_running self = true ->
      exists e,
        run (ti :: rest) o self
        = Outcome (out_log (iteration ti (fails ti) self))
            (out_state (iteration ti (fails ti) self)) (Raise e)).
Proof.
  intros Hcam.
  assert (Hit : forall o', exists e,
                  out_result (iteration ti o' self) = Raise e).
  { intros o'. destruct (out_result (iteration ti o' self)) as [[]|e] eqn:E;
      [|exists e; reflexivity].
    destruct (LoopFacts.iteration_on_drone ti o' self E) as (d & Hd).
    pose proof (iteration_stays_camera ti o' self Hcam) as Hc.
    unfold is_camera in Hc. rewrite Hd in Hc. discriminate Hc. }
  split; [apply Hit|].
  intros Hrun. destruct (Hit (fails ti)) as (e & He). exists e.
  cbn [run].
  rewrite (bind_step get _ o self self [] self) by reflexivity.
  cbn zeta. rewrite Hrun.
  rewrite (bind_raises (with_oracle (fails ti) (iteration ti)) _ o self e He).
  reflexivity.
Qed.

Lemma camera_loop_raises_witness :
  exists e, out_result (iteration idle_tick no_failure on_notebook) = Raise e.
Proof.
  apply (proj1 (camera_loop_raises idle_tick [] no_failure on_notebook
                  eq_refl)).
Defined.

(** *** Every command stays within the clamp range *)

Section Guarded.
Context {S : Type} (I : S -> Prop) (E : event -> Prop).

Lemma guarded_ret {A} (a : A) : guarded I E (ret (S := S) a).
Proof. intros o s H. split; [exact H | constructor]. Qed.

Lemma guarded_raise {A} (e : exn) : guarded I E (raise (S := S) (A := A) e).
Proof. intros o s H. split; [exact H | constructor]. Qed.

Lemma guarded_get : guarded I E (get (S := S)).
Proof. intros o s H. split; [exact H | constructor]. Qed.

Lemma guarded_emit (e : event) : E e -> guarded I E (emit (S := S) e).
Proof. intros He o s H. split; [exact H | repeat constructor; exact He]. Qed.

Lemma guarded_external (c : extcall) (e : event) :
  E e -> guarded I E (external (S := S) c e).
Proof. intros He o s H. split; [exact H | repeat constructor; exact He]. Qed.

Lemma guarded_bind {A B} (m : M S A) (f : A -> M S B) :
  guarded I E m -> (forall a, guarded I E (f a)) -> guarded I E (bind m f).
Proof.
  intros Hm Hf o s H. destruct (Hm o s H) as [H1 L1]. unfold bind.
  destruct (out_result (m o s)) as [a|e]; cbn [out_state out_log].
  - destruct (Hf a o _ H1) as [H2 L2]. split; [exact H2|].
    apply List.Forall_app. split; assumption.
  - split; assumption.
Qed.

Lemma guarded_with_oracle {A} (o' : oracle) (m : M S A) :
  guarded I E m -> guarded I E (with_oracle o' m).
Proof. intros Hm o s. apply Hm. Qed.

Lemma guarded_for_each {A} (xs : list A) (body : A -> M S unit) :
  (forall x, guarded I E (body x)) -> guarded I E (for_each xs body).
Proof.
  intros Hb. induction xs as [|x xs IH]; cbn [for_each].
  - apply guarded_ret.
  - apply guarded_bind; [apply Hb | intros _; exact IH].
Qed.

End Guarded.

Ltac guarded_step :=
  lazymatch goal with
  | |- guarded _ _ (bind _ _) => apply guarded_bind; [|intros ?]
  | |- guarded _ _ (ret _) => apply guarded_ret
  | |- guarded _ _ (raise _) => apply guarded_raise
  | |- guarded _ _ get => apply guarded_get
  | |- guarded _ _ (emit _) => apply guarded_emit; exact Logic.I
  | |- guarded _ _ (external _ (EvCall _)) =>
      apply guarded_external; exact Logic.I
  | |- guarded _ _ (with_oracle _ _) => apply guarded_with_oracle
  | |- guarded _ _ (for_each _ _) => apply guarded_for_each; intros ?
  end.

Lemma in_range_read (d : Drone.t) :
  Controller.in_range d -> exists v, read d = Some v /\ in_bounds v.
Proof.
  intros Hr.
  destruct (Hr "left_right_velocity") as (a & Ha & Ba);
    [unfold Controller.axes; cbn [In]; tauto|].
  destruct (Hr "forward_backward_velocity") as (b & Hb & Bb);
    [unfold Controller.axes; cbn [In]; tauto|].
  destruct (Hr "up_down_velocity") as (c & Hc & Bc);
    [unfold Controller.axes; cbn [In]; tauto|].
  destruct (Hr "yaw_velocity") as (e & He & Be);
    [unfold Controller.axes; cbn [In]; tauto|].
  exists (Velocities a b c e). split.
  - apply read_Some. cbn. unfold Controller.axis in *. auto.
  - unfold in_bounds. cbn. auto.
Qed.

Lemma read_in_range (d : Drone.t) (v : velocities) :
  read d = Some v -> in_bounds v -> Controller.in_range d.
Proof.
  intros Hr (Ba & Bb & Bc & Be). apply read_Some in Hr.
  destruct Hr as (Ha & Hb & Hc & He).
  intros name Hin. unfold Controller.axes in Hin. cbn [In] in Hin.
  unfold Controller.axis.
  destruct Hin as [<-|[<-|[<-|[<-|[]]]]]; eexists; split; eassumption.
Qed.

Lemma guarded_update_rc :
  guarded Controller.in_range bounded_send Drone.update_rc.
Proof.
  intros o d Hr. destruct (in_range_read d Hr) as (v & Hv & Hb).
  apply read_Some in Hv. destruct Hv as (Hlr & Hfb & Hud & Hy).
  rewrite (update_rc_run _ _ _ _ o d Hlr Hfb Hud Hy).
  split; [exact Hr|]. repeat constructor; apply Hb.
Qed.

Lemma guarded_stop : guarded Controller.in_range bounded_send Drone.stop.
Proof.
  intros o d _. split; [apply stop_in_range | rewrite stop_run; constructor].
Qed.

Lemma guarded_plus (name : string) :
  In name Controller.axes ->
  guarded Controller.in_range bounded_send
    (Drone._gain_velocity_plus name 100).
Proof.
  intros Hn o d Hr. split; [apply plus_in_range; assumption|].
  destruct (Hr name Hn) as (v & Hv & _).
  rewrite (plus_run name 100 v o d Hv). constructor.
Qed.

Lemma guarded_minus (name : string) :
  In name Controller.axes ->
  guarded Controller.in_range bounded_send
    (Drone._gain_velocity_minus name (-100)).
Proof.
  intros Hn o d Hr. split; [apply minus_in_range; assumption|].
  destruct (Hr name Hn) as (v & Hv & _).
  rewrite (minus_run name (-100) v o d Hv). constructor.
Qed.

Lemma guarded_waste (name : string) :
  In name Controller.axes ->
  guarded Controller.in_range bounded_send (Drone._waste_velocity name).
Proof.
  intros Hn o d Hr. split; [apply waste_in_range; assumption|].
  destruct (Hr name Hn) as (v & Hv & _).
  rewrite (waste_run name v o d Hv). constructor.
Qed.

(** Every method of [Drone] keeps the velocities in range and sends only
    commands in range. *)
Lemma drone_methods_guarded :
  List.Forall
    (fun nm => guarded Controller.in_range bounded_send (snd nm))
    Drone.methods.
Proof.
  unfold Drone.methods.
  repeat (apply List.Forall_cons;
          [cbn [snd];
           unfold Drone.release, Drone.get_frame, Drone.land, Drone.takeoff,
             Drone.emergency, Drone.right, Drone.left,
             Drone.waste_left_right, Drone.forward, Drone.backward,
             Drone.waste_forward_backward, Drone.up, Drone.down,
             Drone.waste_up_down, Drone.ccw, Drone.cw, Drone.waste_yaw;
           repeat first
             [ guarded_step
             | apply guarded_update_rc
             | apply guarded_stop
             | apply guarded_plus; unfold Controller.axes; cbn [In]; tauto
             | apply guarded_minus; unfold Controller.axes; cbn [In]; tauto
             | apply guarded_waste; unfold Controller.axes; cbn [In]; tauto ]
          |]).
  apply List.Forall_nil.
Qed.

Lemma flying_set_drone (d : Drone.t) (self : t) :
  Controller.in_range d -> flying (set_drone (ADrone d) self).
Proof. intros Hr. exists d. split; [reflexivity | exact Hr]. Qed.

Lemma guarded_drone_call (name : string) :
  guarded flying bounded_send (drone_call name).
Proof.
  intros o self (d & Hd & Hr).
  destruct (lookup_method Drone.methods name) as [m|] eqn:E.
  - rewrite (drone_call_run name m o self d Hd E).
    cbn [out_state out_log].
    apply lookup_method_In in E.
    pose proof (proj1 (List.Forall_forall _ _) drone_methods_guarded _ E)
      as Hg.
    cbn [snd] in Hg. destruct (Hg o d Hr) as [Hr' Hl].
    split; [apply flying_set_drone, Hr'|].
    constructor; [exact Logic.I | exact Hl].
  - unfold drone_call.
    rewrite (bind_step get _ o self self [] self) by reflexivity.
    cbn zeta. rewrite Hd, E. cbn [raise out_state out_log app].
    split; [exists d; auto | constructor].
Qed.

Lemma flying_same_device (s s' : t) :
  same_device s s' -> flying s -> flying s'.
Proof. unfold same_device, flying. intros ->. auto. Qed.

Lemma flying_velocities (self : t) :
  flying self -> exists v, velocities_of self = Some v /\ in_bounds v.
Proof.
  intros (d & Hd & Hr). unfold velocities_of. rewrite Hd.
  apply in_range_read, Hr.
Qed.

Lemma Info_update_idle (now : Z) (o : oracle) (self : t) :
  now = last_upd_time self ->
  Info_update now o self = Outcome [] self (Ok tt).
Proof.
  intros Heq. unfold Info_update.
  rewrite (bind_step get _ o self self [] self) by reflexivity.
  cbn zeta. apply Z.eqb_eq in Heq. rewrite Heq. reflexivity.
Qed.

Lemma guarded_on_info (now : Z) : guarded flying bounded_send (on_info now).
Proof.
  intros o self Hf. unfold on_info.
  destruct (Z.eq_dec now (last_upd_time self)) as [Heq|Hne].
  - rewrite (Info_update_idle now o self Heq). split; [exact Hf | constructor].
  - rewrite (Info_update_due now o self Hne). cbn zeta.
    assert (Hf' : flying (set_last_upd_time now self))
      by (apply (flying_same_device self); [reflexivity | exact Hf]).
    destruct (flying_velocities _ Hf') as (v & Hv & _).
    rewrite (Info__update_run o _ v Hv). cbn [out_state out_log].
    split; [exact Hf'|].
    destruct (o telemetry); repeat constructor.
Qed.

Lemma guarded_handle_event (event : pg_event) :
  guarded flying bounded_send (handle_event event).
Proof.
  intros o self Hf.
  assert (Hq : flying (set_running false self))
    by (apply (flying_same_device self); [reflexivity | exact Hf]).
  destruct event as [|k|].
  - split; [exact Hq | constructor].
  - destruct k; try (split; [exact Hf | constructor]);
      try (split; [exact Hq | constructor]);
      unfold handle_event;
      rewrite (bind_step (ret tt) _ o self self [] tt) by reflexivity;
      cbn zeta; cbn [out_state out_log app]; apply guarded_drone_call, Hf.
  - split; [exact Hf | constructor].
Qed.

Lemma guarded_on_event (evs : list pg_event) (held : key -> bool) :
  guarded flying bounded_send (on_event evs held).
Proof.
  unfold on_event.
  apply guarded_bind;
    [apply guarded_for_each, guarded_handle_event | intros _].
  repeat (apply guarded_bind;
          [destruct (held _); [|destruct (held _)];
           apply guarded_drone_call | intros _]).
  destruct (held _); [|destruct (held _)]; apply guarded_drone_call.
Qed.

Lemma guarded_iteration (ti : tick) :
  guarded flying bounded_send (iteration ti).
Proof.
  unfold iteration, on_render, draw_frame.
  repeat first
    [ guarded_step
    | apply guarded_on_info
    | apply guarded_on_event
    | apply guarded_drone_call ].
Qed.

Lemma guarded_run (ticks : list tick) : guarded flying bounded_send (run ticks).
Proof.
  induction ticks as [|ti rest IH]; cbn [run].
  - apply guarded_bind; [apply guarded_get | intros self].
    destruct (_running self); [apply guarded_ret|].
    unfold on_exit.
    repeat first [guarded_step | apply guarded_drone_call].
  - apply guarded_bind; [apply guarded_get | intros self].
    destruct (_running self).
    + apply guarded_bind; [|intros _; exact IH].
      apply guarded_with_oracle, guarded_iteration.
    + unfold on_exit.
      repeat first [guarded_step | apply guarded_drone_call].
Qed.

(** X11: the clamp range holds for what is sent.  From an [App] on a
    [Drone] whose velocities are within [-100, 100], every
    [send_rc_control] that [run] makes, in the passes and in teardown,
    whatever the keys, the events and the calls that raise, has its four
    arguments within [-100, 100], and the velocities are still in range
    when [run] ends. *)
Theorem every_command_in_range (ticks : list tick) (o : oracle) (self : t) :
  flying self ->
  List.Forall bounded_send (out_log (run ticks o self))
  /\ flying (out_state (run ticks o self)).
Proof.
  intros Hf. destruct (guarded_run ticks o self Hf) as [H1 H2].
  split; assumption.
Qed.

Lemma every_command_in_range_witness :
  List.Forall bounded_send
    (out_log (run [steer_tick; quit_tick] no_failure started)).
Proof.
  refine (proj1 (every_command_in_range [steer_tick; quit_tick] no_failure
                   started _)).
  exists Controller.initial. split; [reflexivity|].
  apply (read_in_range _ (Velocities 0 0 0 0)); [reflexivity|].
  unfold in_bounds. cbn. lia.
Defined.

(** *** Passes in which nothing raises *)

Lemma handle_event_healthy (event : pg_event) (o : oracle) (self : t)
    (d : Drone.t) :
  drone self = ADrone d ->
  reaches_flush o ->
  out_result (handle_event event o self) = Ok tt
  /\ _running (out_state (handle_event event o self))
     = _running self && negb (is_quit event).
Proof.
  intros Hd Ho.
  assert (Hact : forall name m c,
            lookup_method Drone.methods name = Some m ->
            m = external c (EvCall c) ->
            c <> send_rc_control ->
            out_result (drone_call name o self) = Ok tt
            /\ _running (out_state (drone_call name o self))
               = _running self && true).
  { intros name m c Hm -> Hc.
    rewrite (drone_call_run name _ o self d Hd Hm).
    cbn [out_result out_state external]. rewrite (Ho c Hc).
    rewrite andb_true_r. split; reflexivity. }
  destruct event as [|k|].
  - cbn. rewrite andb_false_r. split; reflexivity.
  - destruct k;
      try (cbn; rewrite ?andb_true_r, ?andb_false_r; split; reflexivity);
      unfold handle_event;
      rewrite (bind_step (ret tt) _ o self self [] tt) by reflexivity;
      cbn zeta; cbn [out_result out_state is_quit negb].
    + apply (Hact "land" Drone.land tello_land);
        [reflexivity | reflexivity | discriminate].
    + apply (Hact "takeoff" Drone.takeoff tello_takeoff);
        [reflexivity | reflexivity | discriminate].
    + apply (Hact "emergency" Drone.emergency tello_emergency);
        [reflexivity | reflexivity | discriminate].
  - cbn. rewrite andb_true_r. split; reflexivity.
Qed.

Lemma for_each_healthy (evs : list pg_event) (o : oracle) :
  forall (self : t) (d : Drone.t),
    drone self = ADrone d ->
    reaches_flush o ->
    out_result (for_each evs handle_event o self) = Ok tt
    /\ _running (out_state (for_each evs handle_event o self))
       = _running self && negb (existsb is_quit evs).
Proof.
  induction evs as [|e evs IH]; intros self d Hd Ho.
  - cbn. rewrite andb_true_r. split; reflexivity.
  - destruct (handle_event_healthy e o self d Hd Ho) as [Hok Hrun].
    cbn [for_each existsb]. rewrite (bind_Ok _ _ o self tt Hok).
    cbn [out_result out_state].
    pose proof (handle_event_same_device e o self) as Hsame.
    unfold same_device in Hsame. rewrite Hd in Hsame.
    destruct (IH _ d Hsame Ho) as [Hok' Hrun'].
    split; [exact Hok'|]. rewrite Hrun', Hrun, negb_orb, andb_assoc.
    reflexivity.
Qed.

Lemma on_info_healthy (now : Z) (o : oracle) (self : t) (v : velocities) :
  velocities_of self = Some v ->
  reaches_flush o ->
  out_result (on_info now o self) = Ok tt
  /\ velocities_of (out_state (on_info now o self)) = Some v
  /\ _running (out_state (on_info now o self)) = _running self.
Proof.
  intros Hv Ho. unfold on_info.
  destruct (Z.eq_dec now (last_upd_time self)) as [Heq|Hne].
  - rewrite (Info_update_idle now o self Heq). auto.
  - rewrite (Info_update_due now o self Hne). cbn zeta.
    rewrite (Info__update_run o (set_last_upd_time now self) v) by exact Hv.
    cbn [out_result out_state].
    rewrite (Ho telemetry) by discriminate. auto.
Qed.

Lemma on_render_healthy (o : oracle) (self : t) (d : Drone.t) :
  drone self = ADrone d ->
  reaches_flush o ->
  out_result (on_render o self) = Ok tt /\ out_state (on_render o self) = self.
Proof.
  intros Hd Ho. unfold on_render, draw_frame.
  rewrite (bind_step (drone_call "get_frame") _ o self self
             [EvInvoke "get_frame"; EvCall get_frame_read] tt).
  - cbn zeta. cbn [out_result out_state external].
    rewrite (Ho display) by discriminate. auto.
  - rewrite (drone_call_run "get_frame" Drone.get_frame o self d Hd)
      by reflexivity.
    cbn [Drone.get_frame external out_log out_state out_result].
    rewrite (Ho get_frame_read) by discriminate.
    rewrite (LoopFacts.set_drone_same self _ Hd).
    reflexivity.
Qed.

Lemma flush_run (o : oracle) (self : t) (v : velocities) :
  velocities_of self = Some v ->
  drone_call "update_rc" o self
  = Outcome [EvInvoke "update_rc"; command v] self
      (if o send_rc_control then Raise (ExternalError send_rc_control)
       else Ok tt).
Proof.
  intros Hv. apply velocities_of_drone in Hv. destruct Hv as (d & Hd & Hr).
  apply read_Some in Hr. destruct Hr as (Hlr & Hfb & Hud & Hy).
  rewrite (drone_call_run "update_rc" Drone.update_rc o self d Hd)
    by reflexivity.
  rewrite (update_rc_run _ _ _ _ o d Hlr Hfb Hud Hy).
  cbn [out_log out_state out_result].
  rewrite (LoopFacts.set_drone_same self _ Hd). reflexivity.
Qed.

(** A pass in which no call before the flush raises, on a [Drone] with
    its velocities set. *)
Lemma iteration_reaches_flush (ti : tick) (o : oracle) (self : t)
    (v : velocities) :
  velocities_of self = Some v ->
  reaches_flush o ->
  out_result (iteration ti o self)
  = (if o send_rc_control then Raise (ExternalError send_rc_control)
     else Ok tt)
  /\ velocities_of (out_state (iteration ti o self))
     = Some (key_step (keys ti) v)
  /\ _running (out_state (iteration ti o self))
     = _running self && negb (quits ti)
  /\ sends (out_log (iteration ti o self)) = [command (key_step (keys ti) v)].
Proof.
  intros Hv Ho. unfold iteration, sends.
  rewrite (bind_step get _ o self self [] self) by reflexivity.
  cbn zeta. cbn [out_result out_state out_log app].
  rewrite (bind_step (emit (EvClockTick (fps self))) _ o self self
             [EvClockTick (fps self)] tt) by reflexivity.
  cbn zeta. cbn [out_result out_state out_log app List.filter is_send].
  destruct (on_info_healthy (now ti) o self v Hv Ho) as (Hok1 & Hv1 & Hr1).
  rewrite (bind_Ok _ _ o self tt Hok1).
  cbn [out_result out_state out_log].
  set (s1 := out_state (on_info (now ti) o self)) in *.
  destruct (velocities_of_drone s1 v Hv1) as (d1 & Hd1 & _).
  destruct (for_each_healthy (events ti) o s1 d1 Hd1 Ho) as [Hev Hrun].
  destruct (on_event_run (events ti) (keys ti) o s1 v Hv1 Hev)
    as (d2 & Hok2 & Hst2 & Hr2).
  rewrite (bind_Ok _ _ o s1 tt Hok2).
  cbn [out_result out_state out_log].
  set (s2 := out_state (on_event (events ti) (keys ti) o s1)) in *.
  assert (Hd2 : drone s2 = ADrone d2) by (rewrite Hst2; reflexivity).
  destruct (on_render_healthy o s2 d2 Hd2 Ho) as [Hok3 Hst3].
  rewrite (bind_Ok _ _ o s2 tt Hok3).
  cbn [out_result out_state out_log]. rewrite Hst3.
  assert (Hv2 : velocities_of s2 = Some (key_step (keys ti) v))
    by (unfold velocities_of; rewrite Hd2; exact Hr2).
  rewrite (flush_run o s2 _ Hv2).
  cbn [out_result out_state out_log].
  split; [reflexivity|]. split; [exact Hv2|]. split.
  - rewrite Hst2. cbn [set_drone _running]. rewrite Hrun, Hr1. reflexivity.
  - rewrite !List.filter_app.
    rewrite (LoopFacts.on_info_no_send (now ti) o self).
    rewrite (LoopFacts.on_event_no_send (events ti) (keys ti) o s1).
    rewrite (LoopFacts.on_render_no_send o s2).
    reflexivity.
Qed.

(** A pass in which no call raises, on a [Drone] with its velocities
    set. *)
Lemma iteration_healthy (ti : tick) (o : oracle) (self : t)
    (v : velocities) :
  velocities_of self = Some v ->
  never_fails o ->
  out_result (iteration ti o self) = Ok tt
  /\ velocities_of (out_state (iteration ti o self))
     = Some (key_step (keys ti) v)
  /\ _running (out_state (iteration ti o self))
     = _running self && negb (quits ti)
  /\ sends (out_log (iteration ti o self)) = [command (key_step (keys ti) v)].
Proof.
  intros Hv Ho.
  destruct (iteration_reaches_flush ti o self v Hv (fun c _ => Ho c))
    as (Hok & H).
  rewrite (Ho send_rc_control) in Hok. split; assumption.
Qed.

Lemma run_healthy (o : oracle) (ticks : list tick) :
  forall (self : t) (v : velocities),
    List.Forall healthy ticks ->
    velocities_of self = Some v ->
    _running self = true ->
    out_result (run ticks o self) = Ok InputExhausted
    /\ sends (out_log (run ticks o self))
       = List.map command (trajectory v (List.map keys ticks))
    /\ velocities_of (out_state (run ticks o self))
       = Some (final v (List.map keys ticks))
    /\ _running (out_state (run ticks o self)) = true.
Proof.
  induction ticks as [|ti rest IH]; intros self v Hall Hv Hrun.
  - cbn [run]. rewrite (bind_step get _ o self self [] self) by reflexivity.
    cbn zeta. rewrite Hrun. cbn. auto.
  - apply List.Forall_cons_iff in Hall. destruct Hall as [[Hof Hq] Hall].
    destruct (iteration_healthy ti (fails ti) self v Hv Hof)
      as (Hok & Hv' & Hrun' & Hs).
    rewrite Hrun, Hq in Hrun'. cbn [negb andb] in Hrun'.
    cbn [run]. rewrite (bind_step get _ o self self [] self) by reflexivity.
    cbn zeta. rewrite Hrun.
    rewrite (bind_Ok (with_oracle (fails ti) (iteration ti)) _ o self tt Hok).
    change (with_oracle (fails ti) (iteration ti) o self)
      with (iteration ti (fails ti) self).
    cbn [out_result out_state out_log app].
    destruct (IH _ _ Hall Hv' Hrun') as (Hok2 & Hs2 & Hv2 & Hr2).
    split; [exact Hok2|]. split; [|split; [exact Hv2 | exact Hr2]].
    unfold sends in *. rewrite List.filter_app, Hs, Hs2. reflexivity.
Qed.

Lemma trajectory_length (helds : list (key -> bool)) : forall v,
  length (trajectory v helds) = length helds.
Proof.
  induction helds as [|h helds IH]; intros v; cbn; [reflexivity|].
  rewrite IH. reflexivity.
Qed.

(** X12: while nothing raises and no quit event arrives, the loop is a
    function of the held keys.  From an [App] on a [Drone] with velocities
    [v], a run over such ticks is still running when they are exhausted,
    has sent exactly one command per tick, and the command of each tick
    carries the velocities obtained from [v] by applying the key chains of
    the ticks so far; the velocities it ends with are those of the last
    command. *)
Theorem run_follows_keys (ticks : list tick) (o : oracle) (self : t)
    (v : velocities) :
  List.Forall healthy ticks ->
  velocities_of self = Some v ->
  _running self = true ->
  out_result (run ticks o self) = Ok InputExhausted
  /\ sends (out_log (run ticks o self))
     = List.map command (trajectory v (List.map keys ticks))
  /\ length (sends (out_log (run ticks o self))) = length ticks
  /\ velocities_of (out_state (run ticks o self))
     = Some (final v (List.map keys ticks)).
Proof.
  intros Hall Hv Hrun.
  destruct (run_healthy o ticks self v Hall Hv Hrun) as (H1 & H2 & H3 & _).
  split; [exact H1|]. split; [exact H2|]. split; [|exact H3].
  rewrite H2, List.length_map, trajectory_length, List.length_map.
  reflexivity.
Qed.

Lemma run_follows_keys_witness :
  sends (out_log (run [steer_tick; idle_tick] no_failure started))
  = List.map command
      (trajectory (Velocities 0 0 0 0)
         (List.map keys [steer_tick; idle_tick])).
Proof.
  refine (proj1 (proj2 (run_follows_keys [steer_tick; idle_tick] no_failure
                          started (Velocities 0 0 0 0) _ _ _))).
  - repeat constructor.
  - reflexivity.
  - reflexivity.
Defined.

(** *** What holding and releasing keys leads to *)

Lemma final_cons (v : velocities) (held : key -> bool)
    (helds : list (key -> bool)) :
  final v (held :: helds) = final (key_step held v) helds.
Proof. reflexivity. Qed.

Lemma trajectory_last (helds : list (key -> bool)) : forall v e,
  helds <> [] ->
  List.last (List.map command (trajectory v helds)) e
  = command (final v helds).
Proof.
  induction helds as [|h helds IH]; intros v e Hne; [contradiction|].
  rewrite final_cons. cbn [trajectory List.map].
  destruct helds as [|h' helds'].
  - reflexivity.
  - rewrite <- (IH (key_step h v) e) by discriminate. reflexivity.
Qed.

Lemma final_released (helds : list (key -> bool)) : forall v,
  List.Forall released helds ->
  final v helds
  = Velocities
      (Nat.iter (length helds) Controller.waste_step (left_right v))
      (Nat.iter (length helds) Controller.waste_step (forward_backward v))
      (Nat.iter (length helds) Controller.waste_step (up_down v))
      (Nat.iter (length helds) Controller.waste_step (yaw v)).
Proof.
  induction helds as [|h helds IH]; intros v Hall.
  - destruct v; reflexivity.
  - apply List.Forall_cons_iff in Hall. destruct Hall as [Hh Hall].
    rewrite final_cons, (IH _ Hall). cbn [length].
    rewrite !Nat.iter_succ_r.
    destruct Hh as (Hw & Hs & Ha & Hd & Hsp & Hc & Hq & He).
    unfold key_step, chain.
    cbn [left_right forward_backward up_down yaw].
    rewrite Hw, Hs, Ha, Hd, Hsp, Hc, Hq, He. reflexivity.
Qed.

Lemma waste_iter_zero (n : nat) (x : Z) :
  (10 <= n)%nat -> -100 <= x <= 100 ->
  Nat.iter n Controller.waste_step x = 0.
Proof.
  intros Hn Hx. rewrite iter_waste_step.
  destruct (0 <? x) eqn:E; [apply Z.ltb_lt in E | apply Z.ltb_ge in E]; lia.
Qed.

(** X13: releasing the keys stops the drone within ten ticks.  From
    velocities within [-100, 100], after ten or more ticks in which no
    direction key is held (nothing raising, no quit event) the four
    velocities are 0 and the last command sent is (0, 0, 0, 0). *)
Theorem keys_released_stops (ticks : list tick) (o : oracle) (self : t)
    (v : velocities) :
  List.Forall healthy ticks ->
  List.Forall (fun ti => released (keys ti)) ticks ->
  (10 <= length ticks)%nat ->
  velocities_of self = Some v ->
  in_bounds v ->
  _running self = true ->
  velocities_of (out_state (run ticks o self)) = Some (Velocities 0 0 0 0)
  /\ List.last (sends (out_log (run ticks o self))) EvPgQuit
     = EvSendRc 0 0 0 0.
Proof.
  intros Hall Hrel Hlen Hv (Ba & Bb & Bc & Be) Hrun.
  destruct (run_healthy o ticks self v Hall Hv Hrun) as (_ & Hs & Hf & _).
  assert (Hfin : final v (List.map keys ticks) = Velocities 0 0 0 0).
  { rewrite final_released
      by (apply List.Forall_map; exact Hrel).
    rewrite List.length_map.
    rewrite !waste_iter_zero by assumption. reflexivity. }
  split; [rewrite Hf, Hfin; reflexivity|].
  rewrite Hs, trajectory_last, Hfin; [reflexivity|].
  destruct ticks; [cbn in Hlen; lia | discriminate].
Qed.

Lemma keys_released_stops_witness :
  velocities_of
    (out_state
       (run (List.repeat idle_tick 10) no_failure
          (Make true 30
             (ADrone (<["yaw_velocity" := -97]>
                        (<["up_down_velocity" := 100]> Controller.initial)))
             0)))
  = Some (Velocities 0 0 0 0).
Proof.
  refine (proj1 (keys_released_stops (List.repeat idle_tick 10) no_failure
                   _ (Velocities 0 0 100 (-97)) _ _ _ _ _ _)).
  - repeat constructor.
  - repeat constructor.
  - cbn. lia.
  - reflexivity.
  - unfold in_bounds. cbn. lia.
  - reflexivity.
Defined.

Lemma plus_iter_bounds (n : nat) (x : Z) :
  Z.min 100 (3 * Z.of_nat n) <= Nat.iter (S n) (Controller.plus_step 100) x
  <= 100.
Proof.
  induction n as [|n IH].
  - cbn. unfold Controller.plus_step. lia.
  - rewrite Nat.iter_succ. unfold Controller.plus_step at 1 3. lia.
Qed.

Lemma minus_iter_bounds (n : nat) (x : Z) :
  -100 <= Nat.iter (S n) (Controller.minus_step (-100)) x
  <= Z.max (-100) (-3 * Z.of_nat n).
Proof.
  induction n as [|n IH].
  - cbn. unfold Controller.minus_step. lia.
  - rewrite Nat.iter_succ. unfold Controller.minus_step at 1 3. lia.
Qed.

Lemma final_forward (helds : list (key -> bool)) : forall v,
  (List.Forall (fun held => held K_w = true) helds ->
   forward_backward (final v helds)
   = Nat.iter (length helds) (Controller.plus_step 100)
       (forward_backward v))
  /\ (List.Forall (fun held => held K_w = false /\ held K_s = true) helds ->
      forward_backward (final v helds)
      = Nat.iter (length helds) (Controller.minus_step (-100))
          (forward_backward v)).
Proof.
  induction helds as [|h helds IH]; intros v.
  - split; reflexivity.
  - rewrite final_cons. cbn [length]. rewrite !Nat.iter_succ_r.
    destruct (IH (key_step h v)) as [IHw IHs]. split; intros Hall;
      apply List.Forall_cons_iff in Hall; destruct Hall as [Hh Hall].
    + rewrite (IHw Hall). unfold key_step, chain. cbn [forward_backward].
      rewrite Hh. reflexivity.
    + rewrite (IHs Hall). unfold key_step, chain. cbn [forward_backward].
      destruct Hh as [-> ->]. reflexivity.
Qed.

(** X14: holding a key leads to full speed within 35 ticks.  Whatever the
    forward-backward velocity was, after 35 or more ticks with W held
    (nothing raising, no quit event) it is 100, whichever other keys are
    held; after as many ticks with S held and W not held it is -100. *)
Theorem key_held_reaches_full_speed (ticks : list tick) (o : oracle)
    (self : t) (v : velocities) :
  List.Forall healthy ticks ->
  (35 <= length ticks)%nat ->
  velocities_of self = Some v ->
  _running self = true ->
  exists v', velocities_of (out_state (run ticks o self)) = Some v'
    /\ (List.Forall (fun ti => keys ti K_w = true) ticks ->
        forward_backward v' = 100)
    /\ (List.Forall (fun ti => keys ti K_w = false /\ keys ti K_s = true)
          ticks ->
        forward_backward v' = -100).
Proof.
  intros Hall Hlen Hv Hrun.
  destruct (run_healthy o ticks self v Hall Hv Hrun) as (_ & _ & Hf & _).
  exists (final v (List.map keys ticks)). split; [exact Hf|].
  destruct (final_forward (List.map keys ticks) v) as [Hw Hs].
  rewrite List.length_map in Hw, Hs.
  destruct (length ticks) as [|n] eqn:En; [lia|].
  split; intros Hk.
  - rewrite Hw by (apply List.Forall_map; exact Hk).
    pose proof (plus_iter_bounds n (forward_backward v)). lia.
  - rewrite Hs by (apply List.Forall_map; exact Hk).
    pose proof (minus_iter_bounds n (forward_backward v)). lia.
Qed.

Lemma key_held_reaches_full_speed_witness :
  exists v',
    velocities_of
      (out_state (run (List.repeat steer_tick 35) no_failure started))
    = Some v'
    /\ (List.Forall (fun ti => keys ti K_w = true)
          (List.repeat steer_tick 35) ->
        forward_backward v' = 100)
    /\ (List.Forall (fun ti => keys ti K_w = false /\ keys ti K_s = true)
          (List.repeat steer_tick 35) ->
        forward_backward v' = -100).
Proof.
  apply (key_held_reaches_full_speed (List.repeat steer_tick 35) no_failure
           started (Velocities 0 0 0 0)).
  - repeat constructor.
  - cbn. lia.
  - reflexivity.
  - reflexivity.
Defined.

End AppMore.

(** ** The flush of a pass and the teardown, whatever raises *)

Module LoopMore.
Import App Loop Flight ControllerFacts ControllerMore AppMore.

(** A flush that ends with an exception of its own ([AttributeError]: no
    [update_rc] on the camera, or a velocity not set) has sent nothing. *)
Lemma flush_raise_silent (o : oracle) (self : t) (e : exn) :
  out_result (drone_call "update_rc" o self) = Raise e ->
  e <> ExternalError send_rc_control ->
  sends (out_log (drone_call "update_rc" o self)) = [].
Proof.
  destruct (drone self) as [c|d] eqn:Hd.
  - rewrite (camera_call_run "update_rc" o self c Hd). reflexivity.
  - rewrite (drone_call_run "update_rc" Drone.update_rc o self d Hd)
      by reflexivity.
    cbn [out_result out_log]. intros He Hne.
    destruct (read d) as [v|] eqn:Hr.
    + apply read_Some in Hr. destruct Hr as (Hlr & Hfb & Hud & Hy).
      rewrite (update_rc_run _ _ _ _ o d Hlr Hfb Hud Hy) in He.
      cbn [out_result] in He.
      destruct (o send_rc_control); [|discriminate].
      injection He as <-. contradiction.
    + destruct (update_rc_missing o d Hr) as [Hl _].
      unfold sends. cbn [List.filter is_send]. rewrite Hl. reflexivity.
Qed.

(** A pass that ends with an exception other than the one of the flush has
    sent nothing. *)
Lemma raising_pass_silent (ti : tick) (o : oracle) (self : t) (e : exn) :
  out_result (iteration ti o self) = Raise e ->
  e <> ExternalError send_rc_control ->
  sends (out_log (iteration ti o self)) = [].
Proof.
  unfold iteration, sends.
  rewrite (bind_step get _ o self self [] self) by reflexivity.
  cbn zeta. cbn [out_result out_log app].
  rewrite (bind_step (emit (EvClockTick (fps self))) _ o self self
             [EvClockTick (fps self)] tt) by reflexivity.
  cbn zeta. cbn [out_result out_log app List.filter is_send].
  destruct (out_result (on_info (now ti) o self)) as [[]|e1] eqn:E1.
  2: { rewrite (bind_raises _ _ o self e1 E1). cbn [out_log].
       intros _ _. apply LoopFacts.on_info_no_send. }
  rewrite (bind_Ok _ _ o self tt E1). cbn [out_result out_log].
  rewrite List.filter_app, (LoopFacts.on_info_no_send (now ti) o self).
  cbn [app]. set (s1 := out_state (on_info (now ti) o self)).
  destruct (out_result (on_event (events ti) (keys ti) o s1)) as [[]|e2]
    eqn:E2.
  2: { rewrite (bind_raises _ _ o s1 e2 E2). cbn [out_log].
       intros _ _. apply LoopFacts.on_event_no_send. }
  rewrite (bind_Ok _ _ o s1 tt E2). cbn [out_result out_log].
  rewrite List.filter_app,
    (LoopFacts.on_event_no_send (events ti) (keys ti) o s1).
  cbn [app]. set (s2 := out_state (on_event (events ti) (keys ti) o s1)).
  destruct (out_result (on_render o s2)) as [[]|e3] eqn:E3.
  2: { rewrite (bind_raises _ _ o s2 e3 E3). cbn [out_log].
       intros _ _. apply LoopFacts.on_render_no_send. }
  rewrite (bind_Ok _ _ o s2 tt E3). cbn [out_result out_log].
  rewrite List.filter_app, (LoopFacts.on_render_no_send o s2).
  cbn [app]. apply flush_raise_silent.
Qed.

(** C4, as amended: on a connected drone (the four velocities set), every
    pass through the loop body in which no call made before the flush
    raises makes exactly one [send_rc_control], with the four velocities
    as the key handling of the pass leaves them, whether or not a velocity
    changed; so does every pass that returns.  No pass sends more than one
    command, and a pass that ends with an exception other than the one of
    the flush itself sends none. *)
Theorem flush_each_pass (ti : tick) (o : oracle) (self : t) :
  (length (sends (out_log (iteration ti o self))) <= 1)%nat
  /\ (forall v, velocities_of self = Some v -> reaches_flush o ->
      sends (out_log (iteration ti o self))
      = [command (key_step (keys ti) v)]
      /\ velocities_of (out_state (iteration ti o self))
         = Some (key_step (keys ti) v)
      /\ out_result (iteration ti o self)
         = if o send_rc_control then Raise (ExternalError send_rc_control)
           else Ok tt)
  /\ (out_result (iteration ti o self) = Ok tt ->
      exists v', velocities_of (out_state (iteration ti o self)) = Some v'
                 /\ sends (out_log (iteration ti o self)) = [command v'])
  /\ (forall e, out_result (iteration ti o self) = Raise e ->
      e <> ExternalError send_rc_control ->
      sends (out_log (iteration ti o self)) = []).
Proof.
  split; [apply LoopFacts.at_most_one_flush|]. split; [|split].
  - intros v Hv Ho.
    destruct (iteration_reaches_flush ti o self v Hv Ho)
      as (Hres & Hvel & _ & Hs).
    auto.
  - intros Hok.
    destruct (proj2 (LoopFacts.returning_pass_flushes ti o self) Hok)
      as (d & lr & fb & ud & y & Hd & Hlr & Hfb & Hud & Hy & Hs).
    exists (Velocities lr fb ud y). split; [|exact Hs].
    unfold velocities_of. rewrite Hd. apply read_Some. cbn. auto.
  - apply raising_pass_silent.
Qed.

Lemma flush_each_pass_witness :
  sends (out_log (iteration steer_tick (only_fails send_rc_control) started))
  = [command (key_step (keys steer_tick) (Velocities 0 0 0 0))].
Proof.
  refine (proj1 (proj1 (proj2 (flush_each_pass steer_tick
                                 (only_fails send_rc_control) started))
                   (Velocities 0 0 0 0) _ _)).
  - reflexivity.
  - intros c Hc. destruct c; try reflexivity. contradiction.
Defined.

(** C4 fails as stated: a pass in which the display update raises ends
    with that exception before [update_rc] is reached, and a pass on the
    stand-in camera ends with [AttributeError]; neither sends a
    command. *)
Lemma pass_without_flush :
  (out_result (iteration idle_tick (only_fails display) started)
   = Raise (ExternalError display)
   /\ sends (out_log (iteration idle_tick (only_fails display) started)) = [])
  /\ (out_result (iteration idle_tick no_failure on_notebook)
      = Raise (AttributeError "waste_forward_backward")
      /\ sends (out_log (iteration idle_tick no_failure on_notebook)) = []).
Proof. repeat split; vm_compute; reflexivity. Qed.

(** *** Teardown for every environment *)

Lemma release_cases (o : oracle) (d : Drone.t) :
  Drone.release o d
  = if o streamoff
    then Outcome [EvCall streamoff] d (Raise (ExternalError streamoff))
    else if o send_rc_control
    then Outcome [EvCall streamoff; EvSendRc 0 0 0 0]
           (out_state (Drone.stop o d)) (Raise (ExternalError send_rc_control))
    else if o tello_end
    then Outcome [EvCall streamoff; EvSendRc 0 0 0 0; EvCall tello_end]
           (out_state (Drone.stop o d)) (Raise (ExternalError tello_end))
    else Outcome [EvCall streamoff; EvSendRc 0 0 0 0; EvCall tello_end]
           (out_state (Drone.stop o d)) (Ok tt).
Proof.
  unfold Drone.release.
  destruct (o streamoff) eqn:Hoff.
  { apply bind_stop. unfold external. rewrite Hoff. reflexivity. }
  rewrite (bind_step (external streamoff (EvCall streamoff)) _ o d d
             [EvCall streamoff] tt)
    by (unfold external; rewrite Hoff; reflexivity).
  cbn zeta.
  rewrite (bind_step Drone.stop _ o d (out_state (Drone.stop o d)) [] tt)
    by reflexivity.
  cbn zeta.
  assert (Hrc : Drone.update_rc o (out_state (Drone.stop o d))
                = Outcome [EvSendRc 0 0 0 0] (out_state (Drone.stop o d))
                    (if o send_rc_control
                     then Raise (ExternalError send_rc_control) else Ok tt)).
  { apply (update_rc_run 0 0 0 0);
      apply (stop_axis _ o d); unfold Controller.axes; cbn [In]; tauto. }
  destruct (o send_rc_control) eqn:Hsend.
  { rewrite (bind_stop Drone.update_rc _ o _ _ _ _ Hrc). reflexivity. }
  rewrite (bind_step Drone.update_rc _ o _ _ _ tt Hrc).
  cbn zeta. unfold external.
  destruct (o tello_end); reflexivity.
Qed.

Lemma on_exit_cases (o : oracle) (self : t) (d : Drone.t) :
  drone self = ADrone d ->
  out_log (on_exit o self) = teardown_trace o
  /\ out_result (on_exit o self)
     = match teardown_error o with
       | Some e => Raise e
       | None => Ok tt
       end
  /\ velocities_of (out_state (on_exit o self))
     = if o streamoff then velocities_of self
       else Some (Velocities 0 0 0 0).
Proof.
  intros Hd. unfold on_exit, teardown_trace, teardown_error.
  pose proof (drone_call_run "release" Drone.release o self d Hd eq_refl)
    as Hcall.
  rewrite (release_cases o d) in Hcall.
  pose proof (read_stop o d) as Hzero.
  destruct (o streamoff).
  { cbn [out_log out_state out_result] in Hcall.
    rewrite (LoopFacts.set_drone_same self _ Hd) in Hcall.
    rewrite (bind_stop _ _ o self _ _ _ Hcall). auto. }
  destruct (o send_rc_control).
  { cbn [out_log out_state out_result] in Hcall.
    rewrite (bind_stop _ _ o self _ _ _ Hcall).
    cbn [out_log out_state out_result]. auto. }
  destruct (o tello_end).
  { cbn [out_log out_state out_result] in Hcall.
    rewrite (bind_stop _ _ o self _ _ _ Hcall).
    cbn [out_log out_state out_result]. auto. }
  cbn [out_log out_state out_result] in Hcall.
  rewrite (bind_step _ _ o self _ _ _ Hcall).
  cbn zeta. cbn [emit out_log out_state out_result app]. auto.
Qed.

(** C6, as amended.  A pass on a connected drone (velocities set) in which
    no call raises returns, with its own flush.  When the pass that
    receives a quit event returns, the loop is left and teardown runs in
    the order [streamoff], [stop], a flush of (0, 0, 0, 0), [end],
    [pg.quit]; [run] terminates normally with the four velocities at 0 when
    none of [streamoff], [send_rc_control] and [end] raises.  Nothing is
    swallowed: the first of these calls that raises ends [run] with its
    exception and the steps after it are skipped, so that a failing
    [streamoff] leaves the velocities as they were and sends nothing more,
    and a failing flush or [end] leaves them zeroed without [pg.quit].
    When a call raises in the pass that receives the quit event, [run]
    ends with that exception and teardown is not run.  The ticks after the
    quit are not read. *)
Theorem quit_then_teardown (ti : tick) (rest : list tick) (o : oracle)
    (self : t) :
  _running self = true ->
  quits ti = true ->
  (forall v, velocities_of self = Some v -> never_fails (fails ti) ->
     out_result (iteration ti (fails ti) self) = Ok tt
     /\ sends (out_log (iteration ti (fails ti) self))
        = [command (key_step (keys ti) v)])
  /\ (forall e, out_result (iteration ti (fails ti) self) = Raise e ->
      run (ti :: rest) o self
      = Outcome (out_log (iteration ti (fails ti) self))
          (out_state (iteration ti (fails ti) self)) (Raise e))
  /\ (out_result (iteration ti (fails ti) self) = Ok tt ->
      out_log (run (ti :: rest) o self)
      = (out_log (iteration ti (fails ti) self) ++ teardown_trace o)%list
      /\ out_result (run (ti :: rest) o self)
         = match teardown_error o with
           | Some e => Raise e
           | None => Ok Terminated
           end
      /\ velocities_of (out_state (run (ti :: rest) o self))
         = if o streamoff
           then velocities_of (out_state (iteration ti (fails ti) self))
           else Some (Velocities 0 0 0 0))
  /\ (out_result (iteration ti (fails ti) self) = Ok tt ->
      o streamoff = false -> o send_rc_control = false ->
      o tello_end = false ->
      out_result (run (ti :: rest) o self) = Ok Terminated
      /\ out_log (run (ti :: rest) o self)
         = (out_log (iteration ti (fails ti) self) ++ teardown_log)%list
      /\ velocities_of (out_state (run (ti :: rest) o self))
         = Some (Velocities 0 0 0 0)).
Proof.
  intros Hrun Hq.
  assert (Hpass : forall e,
            out_result (iteration ti (fails ti) self) = Raise e ->
            run (ti :: rest) o self
            = Outcome (out_log (iteration ti (fails ti) self))
                (out_state (iteration ti (fails ti) self)) (Raise e)).
  { intros e He. cbn [run].
    rewrite (bind_step get _ o self self [] self) by reflexivity.
    cbn zeta. rewrite Hrun.
    rewrite (bind_raises (with_oracle (fails ti) (iteration ti)) _ o self e
               He).
    reflexivity. }
  assert (Hdown :
            out_result (iteration ti (fails ti) self) = Ok tt ->
            out_log (run (ti :: rest) o self)
            = (out_log (iteration ti (fails ti) self)
               ++ teardown_trace o)%list
            /\ out_result (run (ti :: rest) o self)
               = match teardown_error o with
                 | Some e => Raise e
                 | None => Ok Terminated
                 end
            /\ velocities_of (out_state (run (ti :: rest) o self))
               = if o streamoff
                 then velocities_of (out_state (iteration ti (fails ti) self))
                 else Some (Velocities 0 0 0 0)).
  { intros Hok.
    destruct (LoopFacts.iteration_on_drone ti (fails ti) self Hok)
      as (d & Hd).
    pose proof (LoopFacts.iteration_quits ti (fails ti) self Hq Hok)
      as Hstop.
    set (s1 := out_state (iteration ti (fails ti) self)) in *.
    destruct (on_exit_cases o s1 d Hd) as (Hl & Hr & Hv).
    cbn [run].
    rewrite (bind_step get _ o self self [] self) by reflexivity.
    cbn zeta. rewrite Hrun.
    rewrite (bind_Ok (with_oracle (fails ti) (iteration ti)) _ o self tt Hok).
    change (with_oracle (fails ti) (iteration ti) o self)
      with (iteration ti (fails ti) self).
    fold s1. rewrite (LoopFacts.run_unfold rest).
    rewrite (bind_step get _ o s1 s1 [] s1) by reflexivity.
    cbn zeta. rewrite Hstop. cbn [out_log out_state out_result app].
    destruct (teardown_error o) as [e|].
    - rewrite (bind_raises on_exit _ o s1 e Hr).
      cbn [out_log out_state out_result]. rewrite Hl. auto.
    - rewrite (bind_Ok on_exit _ o s1 tt Hr).
      cbn [ret out_log out_state out_result]. rewrite Hl, List.app_nil_r.
      auto. }
  split; [|split; [exact Hpass | split; [exact Hdown|]]].
  - intros v Hv Ho.
    destruct (iteration_healthy ti (fails ti) self v Hv Ho)
      as (Hok & _ & _ & Hs).
    auto.
  - intros Hok Hoff Hsend Hend.
    destruct (Hdown Hok) as (Hl & Hr & Hv).
    unfold teardown_error, teardown_trace in *.
    rewrite Hoff, Hsend, Hend in *. auto.
Qed.

Lemma quit_then_teardown_witness :
  out_result (run [quit_tick; idle_tick] no_failure started) = Ok Terminated.
Proof.
  refine (proj1 (proj2 (proj2 (proj2
            (quit_then_teardown quit_tick [idle_tick] no_failure started
               _ _))) _ _ _ _)); vm_compute; reflexivity.
Defined.

End LoopMore.
